(** * smssync: the SMSSync endpoint of [src/index.js]

    A shallow embedding of the Express router built by [smssync(optns)]:
    the secret middleware, the POST route and the GET route, together
    with the pieces of JavaScript, lodash and express-respond they rely
    on.  Handlers ([onReceive], [onSend], ...) are application code; each
    is modelled by the pair [(error, result)] it hands to its callback. *)

From stdpp Require Import gmap strings list fin_maps.
From Stdlib Require Import ZArith.

Open Scope string_scope.

(** ** JavaScript values

    Request queries, request bodies, handler results and responses are
    JSON-like values.  Objects are finite maps from property names to
    values.  Numbers are integers here: the program only ever tests a
    number for being zero. *)

#[warnings="-register-all"]
Inductive value : Type :=
  | VUndefined
  | VNull
  | VBool (b : bool)
  | VNum (n : Z)
  | VStr (s : string)
  | VArr (items : list value)
  | VObj (props : gmap string value).

Module JS.

(** [ToBoolean]: [undefined], [null], [false], [0] and [''] are falsy;
    every array and every object is truthy. *)
Definition truthy (v : value) : bool :=
  match v with
  | VUndefined | VNull => false
  | VBool b => b
  | VNum n => negb (n =? 0)%Z
  | VStr s => negb (bool_decide (s = ""))
  | VArr _ | VObj _ => true
  end.

(** [a || b] *)
Definition or (a b : value) : value := if truthy a then a else b.

(** [a === b].  Primitives compare by value.  Arrays and objects
    compare by identity; the program compares a configuration value
    with a value parsed from the request or with a string literal,
    which are never the same object. *)
Definition strict_eq (a b : value) : bool :=
  match a, b with
  | VUndefined, VUndefined => true
  | VNull, VNull => true
  | VBool x, VBool y => bool_decide (x = y)
  | VNum x, VNum y => bool_decide (x = y)
  | VStr x, VStr y => bool_decide (x = y)
  | _, _ => false
  end.

(** [v.name] for the property names the program reads ([secret],
    [task], [message]): none is an index or [length], so only a plain
    object can hold one.  The program applies it to operands it has
    made sure are neither [undefined] nor [null]. *)
Definition get_prop (v : value) (name : string) : value :=
  match v with
  | VObj props => default VUndefined (props !! name)
  | _ => VUndefined
  end.

(** [this.concat(arg)]: an array argument is spread, any other value
    is appended as one element. *)
Definition concat (this : list value) (arg : value) : list value :=
  this ++ match arg with
          | VArr items => items
          | _ => [arg]
          end.

(** [new Error(message)], seen through its [message] property. *)
Definition Error (message : string) : value :=
  VObj {[ "message" := VStr message ]}.

End JS.

(** ** lodash *)

Module Lodash.

(** [_.get(object, key)]: [undefined] when [object] is [null] or
    [undefined], the property otherwise. *)
Definition get (object : value) (key : string) : value :=
  match object with
  | VObj props => default VUndefined (props !! key)
  | _ => VUndefined
  end.

(** [_.pick(object, paths)]: walks [paths] and copies every one that
    is a property of [object] into a fresh object. *)
Definition pick (object : value) (paths : list string)
  : gmap string value :=
  match object with
  | VObj props =>
      foldr (fun key result =>
               match props !! key with
               | Some v => <[key := v]> result
               | None => result
               end) ∅ paths
  | _ => ∅
  end.

(** How [_.merge] settles one key present in both operands: an
    [undefined] source value is skipped, any other source value wins.
    (lodash merges two object values under one key recursively; no
    call of the program reaches that case, see [pick_hash_fresh].) *)
Definition assignMergeValue (objValue srcValue : value) : value :=
  match srcValue with
  | VUndefined => objValue
  | _ => srcValue
  end.

(** [_.merge(object, ...sources)]: sources are folded into [object]
    from left to right; a property the destination lacks is cloned
    into it. *)
Definition merge (object : gmap string value)
    (sources : list (gmap string value)) : gmap string value :=
  foldl (fun acc source =>
           union_with (fun o s => Some (assignMergeValue o s)) acc source)
        object sources.

(** [_.map(collection, key)] with the property shorthand: the iteratee
    is [_.property(key)], which yields [undefined] on [null] and
    [undefined]. *)
Definition map (collection : list value) (key : string) : list value :=
  (fun item => get item key) <$> collection.

(** [_.compact(array)]: drops the falsy elements. *)
Definition compact (array : list value) : list value :=
  List.filter JS.truthy array.

(** [_.size(array)] *)
Definition size (array : list value) : nat := length array.

(** [_.isEmpty(value)]: [null] and [undefined] are empty, strings and
    arrays when their length is zero, objects when they own no
    property, and every number and boolean. *)
Definition isEmpty (v : value) : bool :=
  match v with
  | VUndefined | VNull => true
  | VStr s => bool_decide (s = "")
  | VArr items => bool_decide (items = [])
  | VObj props => bool_decide (props = ∅)
  | VBool _ | VNum _ => true
  end.

End Lodash.

(** ** express-respond and the Express pipeline *)

(** What a middleware or a route handler does with a request. *)
Inductive outcome : Type :=
  | Respond (status : Z) (body : value)  (* a JSON response was sent *)
  | NextError (error : value)            (* [next(error)] *)
  | Next                                 (* [next()] *)
  | Pending.                             (* neither: no response is sent *)

(** [response.ok(reply)]: HTTP 200 with [reply] as JSON body. *)
Definition response_ok (reply : value) : outcome := Respond 200 reply.

(** A handler invocation, with the argument it received. *)
Inductive call : Type :=
  | CallSent (queued : value)
  | CallDelivered (delivered : value)
  | CallReceive (sms : value)
  | CallQueued
  | CallSend.

(** The arguments [(error, result)] a handler passes to its callback. *)
Definition completion : Type := value * value.

(** The merged options of [smssync(optns)]. *)
Record Options : Type := {
  endpoint : string;
  secret : value;
  reply : value;
  error : value;
  onReceive : value -> completion;
  onSend : completion;
  onSent : value -> completion;
  onQueued : completion;
  onDelivered : value -> completion
}.

(** A request as Express hands it to the router: [query] is always an
    object, [body] is what body-parser decoded. *)
Record Request : Type := {
  method : string;
  path : string;
  query : gmap string value;
  body : value
}.

(** smssync tasks *)
Definition TASK_SEND : string := "send".
Definition TASK_RESULT : string := "result".
Definition TASK_SENT : string := "sent".

(** sms message fields *)
Definition MESSAGE_FIELDS : list string :=
  ["from"; "message"; "message_id"; "sent_to"; "device_id"; "sent_timestamp"].

(** The envelope [{ payload: { success: false, error: message } }]. *)
Definition error_reply (message : value) : value :=
  VObj {[ "payload" :=
            VObj {[ "success" := VBool false; "error" := message ]} ]}.

(** The envelope [{ payload: { success: true, error: null } }]. *)
Definition success_reply : value :=
  VObj {[ "payload" :=
            VObj {[ "success" := VBool true; "error" := VNull ]} ]}.

Section Router.

(** [object-hash], applied to the picked message. *)
Variable hash : value -> string.

(** Express's path matcher: does a request path match a route path? *)
Variable path_match : string -> string -> bool.

(** The guard around the secret middleware:
    [options.secret && !_.isEmpty(options.secret)]. *)
Definition protected (options : Options) : bool :=
  JS.truthy (secret options) && negb (Lodash.isEmpty (secret options)).

(** [(request.query || {}).secret || (request.body || {}).secret] *)
Definition request_secret (request : Request) : value :=
  JS.or (JS.get_prop (JS.or (VObj (query request)) (VObj ∅)) "secret")
        (JS.get_prop (JS.or (body request) (VObj ∅)) "secret").

(** The middleware protecting the endpoint with a secret. *)
Definition secret_middleware (options : Options) (request : Request)
  : outcome :=
  let isValidSecret := JS.strict_eq (secret options) (request_secret request) in
  let isAllowedRequest :=
    bool_decide (method request = "POST") &&
    (JS.strict_eq (JS.get_prop (VObj (query request)) "task") (VStr TASK_SENT) ||
     JS.strict_eq (JS.get_prop (VObj (query request)) "task") (VStr TASK_RESULT)) in
  if isValidSecret || isAllowedRequest then Next
  else
    let err := JS.Error "Secret Key Mismatch" in
    if JS.truthy err && negb (JS.truthy (error options)) then NextError err
    else if JS.truthy err && JS.truthy (error options) then
      let message :=
        JS.or (JS.get_prop err "message")
              (VStr "Fail to process delivery reports") in
      response_ok (error_reply message)
    else Pending.

(** [router.post] handler. *)
Definition post_route (options : Options) (request : Request)
  : list call * outcome :=
  let task := JS.get_prop (JS.or (VObj (query request)) (VObj ∅)) "task" in
  if JS.truthy task && JS.strict_eq task (VStr TASK_SENT) then
    let queued := Lodash.get (body request) "queued_messages" in
    let '(err, result) := onSent options queued in
    let reply := VObj {[ "queued_messages" := VArr (JS.concat [] result) ]} in
    ([CallSent queued], response_ok reply)
  else if JS.truthy task && JS.strict_eq task (VStr TASK_RESULT) then
    let delivered := Lodash.get (body request) "message_result" in
    let '(err, _) := onDelivered options delivered in
    ([CallDelivered delivered],
     if JS.truthy err && negb (JS.truthy (error options)) then NextError err
     else if JS.truthy err && JS.truthy (error options) then
       let message :=
         JS.or (JS.get_prop err "message")
               (VStr "Fail to process delivery reports") in
       response_ok (error_reply message)
     else response_ok success_reply)
  else
    let picked := Lodash.pick (body request) MESSAGE_FIELDS in
    let sms :=
      Lodash.merge ∅ [picked; {[ "hash" := VStr (hash (VObj picked)) ]}] in
    let '(err, result) := onReceive options (VObj sms) in
    let hasReply :=
      (0 <? Lodash.size
              (Lodash.compact (Lodash.map (JS.concat [] result) "to")))%nat in
    ([CallReceive (VObj sms)],
     if JS.truthy err && negb (JS.truthy (error options)) then NextError err
     else if JS.truthy err && JS.truthy (error options) then
       let message :=
         JS.or (JS.get_prop err "message")
               (VStr "Fail to process received message") in
       response_ok (error_reply message)
     else
       let payload : gmap string value :=
         {[ "success" := VBool true; "error" := VNull ]} in
       if JS.truthy (reply options) && hasReply then
         let payload := delete "error" payload in
         let payload := <["task" := VStr TASK_SEND]> payload in
         let messages := JS.concat [] result in
         let payload := <["messages" := VArr messages]> payload in
         response_ok (VObj {[ "payload" := VObj payload ]})
       else response_ok (VObj {[ "payload" := VObj payload ]})).

(** [router.get] handler. *)
Definition get_route (options : Options) (request : Request)
  : list call * outcome :=
  let task := JS.get_prop (JS.or (VObj (query request)) (VObj ∅)) "task" in
  if JS.truthy task && JS.strict_eq task (VStr TASK_RESULT) then
    let '(err, result) := onQueued options in
    let reply := VObj {[ "message_uuids" := VArr (JS.concat [] result) ]} in
    ([CallQueued], response_ok reply)
  else
    let '(err, result) := onSend options in
    ([CallSend],
     if JS.truthy err && negb (JS.truthy (error options)) then NextError err
     else if JS.truthy err && JS.truthy (error options) then
       let message :=
         JS.or (JS.get_prop err "message")
               (VStr "Fail to obtain message to send") in
       response_ok (error_reply message)
     else
       response_ok
         (VObj {[ "payload" :=
                    VObj {[ "task" := VStr TASK_SEND;
                            "secret" := secret options;
                            "messages" := VArr (JS.concat [] result) ]} ]})).

(** Does the request reach the route registered for [verb] at
    [`/${options.endpoint}`]?  Express serves HEAD through a GET route
    when the router has no HEAD route of its own. *)
Definition routed (verb : string) (options : Options) (request : Request)
  : bool :=
  (bool_decide (method request = verb) ||
   (bool_decide (verb = "GET") && bool_decide (method request = "HEAD")))
  && path_match ("/" ++ endpoint options) (path request).

(** The two routes, in registration order; a request neither of them
    matches leaves the router through [next()].  (The answer Express
    itself gives to an OPTIONS request on a matching path is not
    modelled.) *)
Definition routes (options : Options) (request : Request)
  : list call * outcome :=
  if routed "POST" options request then post_route options request
  else if routed "GET" options request then get_route options request
  else ([], Next).

(** The router returned by [smssync(optns)]: the secret middleware,
    installed only for a configured secret, runs before the routes.
    The router object belongs to the module; this is what one call of
    [smssync] installs on it.  The model starts where the secret
    middleware starts: a [Request] is a request whose body the body
    parsers installed before it (lines 58-63) have decoded, and what
    those do with an undecodable body is not part of it. *)
Definition smssync (options : Options) (request : Request)
  : list call * outcome :=
  let guard :=
    if protected options then secret_middleware options request else Next in
  match guard with
  | Next => routes options request
  | stopped => ([], stopped)
  end.

End Router.

(** ** The specification's vocabulary *)

(** The five protocol operations. *)
Inductive Task : Type :=
  | ReceiveMessage
  | SendPoll
  | SentAck
  | DeliveryResult
  | QueuedPoll.

(** The operation a handler invocation stands for. *)
Definition task_of_call (c : call) : Task :=
  match c with
  | CallSent _ => SentAck
  | CallDelivered _ => DeliveryResult
  | CallReceive _ => ReceiveMessage
  | CallQueued => QueuedPoll
  | CallSend => SendPoll
  end.

(** "The [task] query parameter is exactly [name]." *)
Definition task_is (task : option value) (name : string) : bool :=
  match task with
  | Some (VStr t) => bool_decide (t = name)
  | _ => false
  end.

(** The classification table of the specification, row by row, over the
    HTTP method and the [task] query parameter ([None] when absent). *)
Definition spec_classify (method : string) (task : option value)
  : option Task :=
  if bool_decide (method = "POST") then
    if task_is task "sent" then Some SentAck
    else if task_is task "result" then Some DeliveryResult
    else Some ReceiveMessage
  else if bool_decide (method = "GET") then
    if task_is task "result" then Some QueuedPoll
    else Some SendPoll
  else None.

(** The specification's "flattened sequence": a bare value becomes a
    one-element sequence, a sequence passes through unchanged, an absent
    or null value becomes the empty sequence. *)
Definition spec_flatten (v : value) : list value :=
  match v with
  | VArr items => items
  | VUndefined | VNull => []
  | _ => [v]
  end.

(** The property [key] a decoded body carries, if any. *)
Definition own (v : value) (key : string) : option value :=
  match v with
  | VObj props => props !! key
  | _ => None
  end.

(** A request the POST route hands to [onReceive]. *)
Definition is_receive (request : Request) : Prop :=
  method request = "POST" ∧
  query request !! "task" ≠ Some (VStr "sent") ∧
  query request !! "task" ≠ Some (VStr "result").

(** A request the GET route hands to [onSend]. *)
Definition is_send_poll (request : Request) : Prop :=
  method request = "GET" ∧ query request !! "task" ≠ Some (VStr "result").

(** The request path matches the route path [`/${options.endpoint}`]. *)
Definition reaches (path_match : string → string → bool)
    (options : Options) (request : Request) : Prop :=
  path_match ("/" ++ endpoint options) (path request) = true.

(** The request gets past the secret middleware (or there is none). *)
Definition authorized (options : Options) (request : Request) : Prop :=
  (if protected options then secret_middleware options request else Next)
  = Next.

(** A POST whose [task] query parameter is exactly [sent] or [result]. *)
Definition is_exempt (request : Request) : Prop :=
  method request = "POST" ∧
  (query request !! "task" = Some (VStr "sent") ∨
   query request !! "task" = Some (VStr "result")).

(** The callback arguments produced by the handler behind an
    invocation. *)
Definition completion_of (options : Options) (c : call) : completion :=
  match c with
  | CallSent queued => onSent options queued
  | CallDelivered delivered => onDelivered options delivered
  | CallReceive sms => onReceive options sms
  | CallQueued => onQueued options
  | CallSend => onSend options
  end.

(** The specification's default failure messages, by task. *)
Definition spec_default_message (task : Task) : option string :=
  match task with
  | ReceiveMessage => Some "Fail to process received message"
  | DeliveryResult => Some "Fail to process delivery reports"
  | SendPoll => Some "Fail to obtain message to send"
  | SentAck | QueuedPoll => None
  end.

(** ** Sample configurations and requests

    The handlers of the repository's test suite, the requests of the
    specification's scenarios, and handlers that fail. *)

(** A stand-in for [object-hash]: the message identifier. *)
Definition sample_hash (v : value) : string :=
  match Lodash.get v "message_id" with
  | VStr s => s
  | _ => ""
  end.

(** A stand-in for Express's path matcher: exact match. *)
Definition sample_match (route path : string) : bool :=
  bool_decide (route = path).

(** The options of the test suite: every handler succeeds. *)
Definition test_options (inline : value) : Options := {|
  endpoint := "smssync";
  secret := VStr "smssync";
  reply := VBool true;
  error := inline;
  onReceive := fun sms =>
    (VNull, VObj {[ "to" := Lodash.get sms "from";
                    "uuid" := Lodash.get sms "message_id";
                    "message" := Lodash.get sms "message" ]});
  onSend :=
    (VNull, VArr [VObj {[ "to" := VStr "+1"; "message" := VStr "x";
                          "uuid" := VStr "u1" ]}]);
  onSent := fun queued => (VNull, queued);
  onQueued := (VNull, VArr [VStr "u1"]);
  onDelivered := fun delivered => (VNull, delivered)
|}.

(** Options whose handlers all fail, with an error that has no message;
    [onReceive] supplies a reply all the same. *)
Definition failing_options (inline : value) : Options := {|
  endpoint := "smssync";
  secret := VStr "smssync";
  reply := VBool true;
  error := inline;
  onReceive := fun _ => (JS.Error "", VObj {[ "to" := VStr "+1" ]});
  onSend := (JS.Error "", VUndefined);
  onSent := fun _ => (JS.Error "", VUndefined);
  onQueued := (JS.Error "", VNull);
  onDelivered := fun _ => (JS.Error "", VUndefined)
|}.

(** Options whose polling handlers succeed with nothing to hand out:
    [done(null)] and [done(null, null)]. *)
Definition idle_options : Options := {|
  endpoint := "smssync";
  secret := VStr "smssync";
  reply := VBool true;
  error := VBool true;
  onReceive := fun _ => (VNull, VUndefined);
  onSend := (VNull, VUndefined);
  onSent := fun _ => (VNull, VUndefined);
  onQueued := (VNull, VNull);
  onDelivered := fun _ => (VNull, VUndefined)
|}.

(** [POST /smssync?secret=smssync] with a message and a stray [secret]
    field in the body. *)
Definition receive_request : Request := {|
  method := "POST";
  path := "/smssync";
  query := {[ "secret" := VStr "smssync" ]};
  body := VObj {[ "from" := VStr "+1"; "message" := VStr "hi";
                  "message_id" := VStr "m1"; "sent_to" := VStr "+2";
                  "device_id" := VStr "d1"; "sent_timestamp" := VStr "t1";
                  "secret" := VStr "smssync" ]}
|}.

(** The same message without the stray field. *)
Definition receive_request_bare : Request := {|
  method := "POST";
  path := "/smssync";
  query := {[ "secret" := VStr "smssync" ]};
  body := VObj {[ "from" := VStr "+1"; "message" := VStr "hi";
                  "message_id" := VStr "m1"; "sent_to" := VStr "+2";
                  "device_id" := VStr "d1"; "sent_timestamp" := VStr "t1" ]}
|}.

(** The message [onReceive] gets for either of them. *)
Definition received_sms : gmap string value :=
  {[ "from" := VStr "+1"; "message" := VStr "hi";
     "message_id" := VStr "m1"; "sent_to" := VStr "+2";
     "device_id" := VStr "d1"; "sent_timestamp" := VStr "t1";
     "hash" := VStr "m1" ]}.

(** [GET /smssync?secret=smssync] *)
Definition send_request : Request := {|
  method := "GET";
  path := "/smssync";
  query := {[ "secret" := VStr "smssync" ]};
  body := VObj ∅
|}.

(** [GET /smssync?task=result&secret=smssync] *)
Definition queued_request : Request := {|
  method := "GET";
  path := "/smssync";
  query := {[ "task" := VStr "result"; "secret" := VStr "smssync" ]};
  body := VObj ∅
|}.

(** [POST /smssync?task=sent] with a queue of one identifier. *)
Definition sent_request : Request := {|
  method := "POST";
  path := "/smssync";
  query := {[ "task" := VStr "sent" ]};
  body := VObj {[ "queued_messages" := VArr [VStr "u1"] ]}
|}.

(** [POST /smssync?task=result&secret=smssync] with one report. *)
Definition delivered_request : Request := {|
  method := "POST";
  path := "/smssync";
  query := {[ "task" := VStr "result"; "secret" := VStr "smssync" ]};
  body := VObj {[ "message_result" :=
                    VArr [VObj {[ "uuid" := VStr "u1" ]}] ]}
|}.

(** [GET /smssync], no secret anywhere. *)
Definition anonymous_request : Request := {|
  method := "GET";
  path := "/smssync";
  query := ∅;
  body := VObj ∅
|}.

(** [POST /smssync?secret=]: an empty [secret] in the query, the right
    one in the body. *)
Definition empty_query_secret_request : Request := {|
  method := "POST";
  path := "/smssync";
  query := {[ "secret" := VStr "" ]};
  body := VObj {[ "secret" := VStr "smssync"; "message" := VStr "hi" ]}
|}.

(** The specification's "provided secret": the [secret] query parameter
    takes precedence when present, the body's [secret] is the fallback
    when the query has none. *)
Definition spec_provided_secret (request : Request) : value :=
  match query request !! "secret" with
  | Some q => q
  | None => default VUndefined (own (body request) "secret")
  end.

(** ** The merged options *)

(** The defaults [smssync] merges the caller's options into. *)
Definition DEFAULTS : gmap string value :=
  {[ "endpoint" := VStr "smssync"; "secret" := VStr "smssync";
     "reply" := VBool true; "error" := VBool true ]}.

(** [_.merge({}, DEFAULTS, optns)], on the data properties of [optns]
    (an absent [optns] is the empty object).  Every default is a
    primitive, so no key pairs two object values. *)
Definition merged_options (optns : gmap string value) : gmap string value :=
  Lodash.merge ∅ [DEFAULTS; optns].

(** ** The first version of the router ([index.js])

    No secret, no tasks: POST hands the whole body to [onReceive], GET
    polls [onSend]. *)

Module Legacy.

(** [router.post] handler. *)
Definition post_route (options : Options) (request : Request)
  : list call * outcome :=
  let sms := body request in
  let '(err, result) := onReceive options sms in
  ([CallReceive sms],
   if JS.truthy err && negb (JS.truthy (error options)) then NextError err
   else if JS.truthy err && JS.truthy (error options) then
     let message :=
       JS.or (JS.get_prop err "message")
             (VStr "Fail to process received message") in
     response_ok (error_reply message)
   else
     let payload : gmap string value :=
       {[ "success" := VBool true; "error" := VNull ]} in
     if JS.truthy (reply options) then
       let payload := delete "error" payload in
       let payload := <["task" := VStr TASK_SEND]> payload in
       let messages := JS.concat [] result in
       let payload := <["messages" := VArr messages]> payload in
       response_ok (VObj {[ "payload" := VObj payload ]})
     else response_ok (VObj {[ "payload" := VObj payload ]})).

(** [router.get] handler. *)
Definition get_route (options : Options) (request : Request)
  : list call * outcome :=
  let '(err, result) := onSend options in
  ([CallSend],
   if JS.truthy err && negb (JS.truthy (error options)) then NextError err
   else if JS.truthy err && JS.truthy (error options) then
     let message :=
       JS.or (JS.get_prop err "message")
             (VStr "Fail to obtain message to send") in
     response_ok (error_reply message)
   else
     response_ok
       (VObj {[ "payload" :=
                  VObj {[ "task" := VStr TASK_SEND;
                          "secret" := secret options;
                          "messages" := VArr (JS.concat [] result) ]} ]})).

(** The router: the two routes and nothing in front of them. *)
Definition smssync (path_match : string -> string -> bool)
    (options : Options) (request : Request) : list call * outcome :=
  if routed path_match "POST" options request then post_route options request
  else if routed path_match "GET" options request then get_route options request
  else ([], Next).

End Legacy.

(** ** More sample configurations and requests *)

(** Options whose handlers all fail with the message "boom". *)
Definition boom_options (inline : value) : Options := {|
  endpoint := "smssync";
  secret := VStr "smssync";
  reply := VBool true;
  error := inline;
  onReceive := fun _ => (JS.Error "boom", VUndefined);
  onSend := (JS.Error "boom", VUndefined);
  onSent := fun _ => (JS.Error "boom", VUndefined);
  onQueued := (JS.Error "boom", VUndefined);
  onDelivered := fun _ => (JS.Error "boom", VUndefined)
|}.

(** Options with [secret: null]: the endpoint is left open. *)
Definition open_options : Options := {|
  endpoint := "smssync";
  secret := VNull;
  reply := VBool true;
  error := VBool true;
  onReceive := fun _ => (VNull, VUndefined);
  onSend := (VNull, VArr []);
  onSent := fun queued => (VNull, queued);
  onQueued := (VNull, VArr []);
  onDelivered := fun _ => (VNull, VUndefined)
|}.

(** [GET /smssync?secret=nope] with the right secret in the body. *)
Definition wrong_query_secret_request : Request := {|
  method := "GET";
  path := "/smssync";
  query := {[ "secret" := VStr "nope" ]};
  body := VObj {[ "secret" := VStr "smssync" ]}
|}.

(** [POST /smssync?task=result] with one report and no secret. *)
Definition anonymous_delivered_request : Request := {|
  method := "POST";
  path := "/smssync";
  query := {[ "task" := VStr "result" ]};
  body := VObj {[ "message_result" :=
                    VArr [VObj {[ "uuid" := VStr "u1" ]}] ]}
|}.

(** [POST /smssync?secret=smssync] with an empty body. *)
Definition empty_receive_request : Request := {|
  method := "POST";
  path := "/smssync";
  query := {[ "secret" := VStr "smssync" ]};
  body := VObj ∅
|}.

(** ** Properties of the JavaScript and lodash primitives *)

Lemma task_is_true task name :
  task_is task name = true ↔ task = Some (VStr name).
Proof.
  unfold task_is. destruct task as [[]|]; try (split; [discriminate|congruence]).
  rewrite bool_decide_eq_true. split; congruence.
Qed.

Lemma task_is_false task name :
  task_is task name = false ↔ task ≠ Some (VStr name).
Proof.
  rewrite <- not_true_iff_false, task_is_true. reflexivity.
Qed.

Lemma strict_eq_str_l s v : JS.strict_eq (VStr s) v = true ↔ v = VStr s.
Proof.
  destruct v; simpl; try (split; [discriminate|congruence]).
  rewrite bool_decide_eq_true. split; congruence.
Qed.

(** [request.query.task === name], read on the query map. *)
Lemma strict_eq_task (q : gmap string value) name :
  JS.strict_eq (JS.get_prop (VObj q) "task") (VStr name)
  = task_is (q !! "task") name.
Proof.
  unfold JS.get_prop, task_is. destruct (q !! "task") as [[]|]; reflexivity.
Qed.

(** [task && task === name] for a non-empty literal [name]. *)
Lemma task_test (q : gmap string value) name :
  name ≠ "" →
  let task := JS.get_prop (JS.or (VObj q) (VObj ∅)) "task" in
  JS.truthy task && JS.strict_eq task (VStr name) = task_is (q !! "task") name.
Proof.
  intros Hname. simpl. unfold JS.or. simpl. unfold task_is.
  destruct (q !! "task") as [[]|]; simpl; try reflexivity;
    try (rewrite andb_false_r; reflexivity).
  destruct (decide (s = name)) as [->|Hne].
  - rewrite (bool_decide_eq_true_2 (name = name)) by done.
    rewrite (bool_decide_eq_false_2 (name = "")) by done. reflexivity.
  - rewrite (bool_decide_eq_false_2 (s = name)) by done.
    apply andb_false_r.
Qed.

(** A string is truthy exactly when it is not empty. *)
Lemma truthy_string s : JS.truthy (VStr s) = true ↔ s ≠ "".
Proof.
  simpl. rewrite negb_true_iff, bool_decide_eq_false. reflexivity.
Qed.

(** [_.pick] keeps a property exactly when its name is among [paths]. *)
Lemma lookup_pick (props : gmap string value) paths key :
  Lodash.pick (VObj props) paths !! key
  = if decide (key ∈ paths) then props !! key else None.
Proof.
  unfold Lodash.pick. induction paths as [|p paths IH]; simpl.
  - rewrite lookup_empty.
    destruct (decide (key ∈ [])) as [Hin|]; [inversion Hin | reflexivity].
  - destruct (decide (key = p)) as [->|Hne].
    + rewrite decide_True by left.
      destruct (props !! p) as [v|] eqn:Hp.
      * apply lookup_insert_eq.
      * rewrite IH. destruct (decide (p ∈ paths)); congruence.
    + assert (Hrest : (foldr (λ key0 result,
                          match props !! key0 with
                          | Some v => <[key0:=v]> result
                          | None => result
                          end) ∅ paths : gmap string value) !! key
                      = if decide (key ∈ p :: paths) then props !! key else None).
      { rewrite IH.
        destruct (decide (key ∈ paths)) as [Hin|Hout],
                 (decide (key ∈ p :: paths)) as [Hin'|Hout']; try reflexivity.
        - exfalso. apply Hout'. right. exact Hin.
        - apply elem_of_cons in Hin' as [Heq|Hin']; contradiction. }
      destruct (props !! p); [rewrite lookup_insert_ne by done|]; exact Hrest.
Qed.

Lemma lookup_pick_own body paths key :
  Lodash.pick body paths !! key
  = if decide (key ∈ paths) then own body key else None.
Proof.
  destruct body;
    try (simpl; rewrite lookup_empty; destruct (decide (key ∈ paths));
         reflexivity).
  apply lookup_pick.
Qed.

(** [hash] is not a message field: the two sources the POST route hands
    to [_.merge] never share a key. *)
Lemma pick_hash_fresh body : Lodash.pick body MESSAGE_FIELDS !! "hash" = None.
Proof.
  rewrite lookup_pick_own. rewrite decide_False; [reflexivity|].
  intros Hin. apply list_elem_of_In in Hin. simpl in Hin.
  intuition discriminate.
Qed.

(** The message built for [onReceive], key by key. *)
Lemma lookup_merge_hash (picked : gmap string value) h key :
  picked !! "hash" = None →
  Lodash.merge ∅ [picked; {[ "hash" := VStr h ]}] !! key
  = if decide (key = "hash") then Some (VStr h) else picked !! key.
Proof.
  intros Hfresh. unfold Lodash.merge. simpl.
  rewrite !lookup_union_with, lookup_empty.
  destruct (decide (key = "hash")) as [Hk|Hk].
  - subst key. rewrite Hfresh, lookup_singleton_eq. reflexivity.
  - rewrite lookup_singleton_ne by congruence.
    destruct (picked !! key); reflexivity.
Qed.

(** [[].concat(result)] agrees with the specification's flattening on
    every value that is neither [null] nor [undefined]. *)
Lemma concat_spec_flatten result :
  result ≠ VNull → result ≠ VUndefined →
  JS.concat [] result = spec_flatten result.
Proof. intros Hnull Hundef. destruct result; try congruence; reflexivity. Qed.

(** [hasReply]: some flattened item has a truthy [to]. *)
Lemma hasReply_exists (items : list value) :
  (0 <? Lodash.size (Lodash.compact (Lodash.map items "to")))%nat = true
  ↔ ∃ item, item ∈ items ∧ JS.truthy (Lodash.get item "to") = true.
Proof.
  unfold Lodash.size, Lodash.compact, Lodash.map.
  rewrite Nat.ltb_lt. induction items as [|x items IH]; simpl.
  - split; [lia|]. intros (item & Hin & _). inversion Hin.
  - destruct (JS.truthy (Lodash.get x "to")) eqn:Hx; simpl.
    + split; [|lia]. intros _. exists x. split; [left|exact Hx].
    + rewrite IH. split.
      * intros (item & Hin & Ht). exists item. split; [right; exact Hin|exact Ht].
      * intros (item & Hin & Ht). apply elem_of_cons in Hin as [->|Hin].
        -- congruence.
        -- exists item. split; assumption.
Qed.

(** ** Properties of the router *)

Section Properties.

Variable hash : value → string.
Variable path_match : string → string → bool.

Lemma smssync_authorized options request :
  authorized options request →
  smssync hash path_match options request
  = routes hash path_match options request.
Proof. unfold authorized, smssync. intros ->. reflexivity. Qed.

Lemma routes_post options request :
  method request = "POST" → reaches path_match options request →
  routes hash path_match options request = post_route hash options request.
Proof.
  unfold routes, routed, reaches. intros -> ->. reflexivity.
Qed.

Lemma routes_get options request :
  method request = "GET" → reaches path_match options request →
  routes hash path_match options request = get_route options request.
Proof.
  unfold routes, routed, reaches. intros -> ->. reflexivity.
Qed.

Lemma exempt_authorized options request :
  is_exempt request → authorized options request.
Proof.
  intros [Hpost Htask]. unfold authorized, secret_middleware.
  destruct (protected options); [|reflexivity].
  rewrite !strict_eq_task, Hpost.
  destruct Htask as [-> | ->]; simpl; rewrite orb_true_r; reflexivity.
Qed.

Lemma valid_secret_authorized options request :
  JS.strict_eq (secret options) (request_secret request) = true →
  authorized options request.
Proof.
  intros Hvalid. unfold authorized, secret_middleware.
  destruct (protected options); [|reflexivity].
  rewrite Hvalid. reflexivity.
Qed.

(** C1 (amended).  With a non-empty string as configured secret, a
    request whose secret as the program reads it ([query.secret ||
    body.secret]: the query's when truthy, the body's otherwise) differs
    from it, and which is not a POST with [task] exactly [sent] or
    [result], is stopped by the secret middleware: no handler is called, and the outcome is the
    inline envelope [{payload: {success: false, error: "Secret Key
    Mismatch"}}] with HTTP 200 when [options.error] is truthy, and
    [next(error)] with that error otherwise. *)
Theorem secret_mismatch_short_circuits options request s :
  secret options = VStr s → s ≠ "" →
  request_secret request ≠ VStr s →
  ¬ is_exempt request →
  smssync hash path_match options request
  = ([], if JS.truthy (error options)
         then Respond 200
                (VObj {[ "payload" :=
                           VObj {[ "success" := VBool false;
                                   "error" := VStr "Secret Key Mismatch" ]} ]})
         else NextError (JS.Error "Secret Key Mismatch")).
Proof.
  intros Hsecret Hnonempty Hmismatch Hexempt.
  unfold smssync, protected, secret_middleware. rewrite Hsecret.
  assert (Hguard : JS.truthy (VStr s) && negb (Lodash.isEmpty (VStr s)) = true).
  { simpl. rewrite bool_decide_eq_false_2 by done. reflexivity. }
  rewrite Hguard.
  assert (Hvalid : JS.strict_eq (VStr s) (request_secret request) = false).
  { apply not_true_iff_false. rewrite strict_eq_str_l. exact Hmismatch. }
  rewrite Hvalid, !strict_eq_task.
  assert (Hallowed :
    bool_decide (method request = "POST") &&
    (task_is (query request !! "task") TASK_SENT
     || task_is (query request !! "task") TASK_RESULT) = false).
  { apply not_true_iff_false. intros Htrue. apply Hexempt.
    apply andb_true_iff in Htrue as [Hpost Htask].
    apply bool_decide_eq_true in Hpost.
    apply orb_true_iff in Htask as [Htask|Htask];
      apply task_is_true in Htask; split; auto. }
  rewrite Hallowed. simpl.
  destruct (JS.truthy (error options)); reflexivity.
Qed.

(** The handler invocations of the two routes, read off the request. *)
Lemma routes_calls options request :
  reaches path_match options request →
  method request = "POST" ∨ method request = "GET" →
  (routes hash path_match options request).1
  = if bool_decide (method request = "POST") then
      if task_is (query request !! "task") "sent" then
        [CallSent (Lodash.get (body request) "queued_messages")]
      else if task_is (query request !! "task") "result" then
        [CallDelivered (Lodash.get (body request) "message_result")]
      else
        let picked := Lodash.pick (body request) MESSAGE_FIELDS in
        [CallReceive
           (VObj (Lodash.merge ∅
                    [picked; {[ "hash" := VStr (hash (VObj picked)) ]}]))]
    else if task_is (query request !! "task") "result" then [CallQueued]
    else [CallSend].
Proof.
  intros Hpath [Hm|Hm].
  - rewrite routes_post by assumption. rewrite Hm. simpl.
    unfold post_route.
    rewrite (task_test (query request) TASK_SENT) by discriminate.
    rewrite (task_test (query request) TASK_RESULT) by discriminate.
    unfold TASK_SENT, TASK_RESULT.
    destruct (task_is (query request !! "task") "sent").
    { destruct (onSent options _). reflexivity. }
    destruct (task_is (query request !! "task") "result").
    { destruct (onDelivered options _). reflexivity. }
    destruct (onReceive options _). reflexivity.
  - rewrite routes_get by assumption. rewrite Hm. simpl.
    unfold get_route.
    rewrite (task_test (query request) TASK_RESULT) by discriminate.
    unfold TASK_RESULT.
    destruct (task_is (query request !! "task") "result").
    { destruct (onQueued options). reflexivity. }
    destruct (onSend options). reflexivity.
Qed.

(** C2.  A request to the endpoint, POST or GET, makes the routes call
    exactly one handler; the operation it stands for is the one the
    specification's table gives for the method and the [task] query
    parameter, so it depends on nothing else; and any request with the
    same method, query and body, under any options, yields the same
    invocation: same operation, same normalized argument. *)
Theorem classification_follows_table options request :
  reaches path_match options request →
  method request = "POST" ∨ method request = "GET" →
  ∃ c,
    (routes hash path_match options request).1 = [c]
    ∧ spec_classify (method request) (query request !! "task")
      = Some (task_of_call c)
    ∧ ∀ options' request',
        reaches path_match options' request' →
        method request' = method request →
        query request' = query request →
        body request' = body request →
        (routes hash path_match options' request').1 = [c].
Proof.
  intros Hpath Hm.
  assert (Hcalls := routes_calls options request Hpath Hm).
  assert (Hsame : ∀ options' request',
    reaches path_match options' request' →
    method request' = method request →
    query request' = query request →
    body request' = body request →
    (routes hash path_match options' request').1
    = (routes hash path_match options request).1).
  { intros options' request' Hpath' Hm' Hq' Hb'.
    rewrite routes_calls, Hcalls by (assumption || (rewrite Hm'; exact Hm)).
    rewrite Hm', Hq', Hb'. reflexivity. }
  unfold spec_classify. destruct Hm as [Hm|Hm]; rewrite Hm in *; simpl in *.
  - destruct (task_is (query request !! "task") "sent");
      [|destruct (task_is (query request !! "task") "result")];
      (eexists; split; [exact Hcalls|]; split; [reflexivity|]);
      intros; rewrite <- Hcalls; apply Hsame; assumption.
  - destruct (task_is (query request !! "task") "result");
      (eexists; split; [exact Hcalls|]; split; [reflexivity|]);
      intros; rewrite <- Hcalls; apply Hsame; assumption.
Qed.

(** [_.pick] sees only the properties it is asked for. *)
Lemma pick_ext body body' paths :
  (∀ key, key ∈ paths → own body' key = own body key) →
  Lodash.pick body' paths = Lodash.pick body paths.
Proof.
  intros Hagree. apply map_eq. intros key. rewrite !lookup_pick_own.
  destruct (decide (key ∈ paths)); [apply Hagree; assumption|reflexivity].
Qed.

(** The invocation of [onReceive] for a ReceiveMessage request. *)
Lemma receive_calls options request :
  reaches path_match options request → is_receive request →
  (routes hash path_match options request).1
  = let picked := Lodash.pick (body request) MESSAGE_FIELDS in
    [CallReceive
       (VObj (Lodash.merge ∅
                [picked; {[ "hash" := VStr (hash (VObj picked)) ]}]))].
Proof.
  intros Hpath (Hm & Hsent & Hresult).
  rewrite routes_calls by auto. rewrite Hm. simpl.
  apply task_is_false in Hsent, Hresult. rewrite Hsent, Hresult.
  reflexivity.
Qed.

(** C3.  For a ReceiveMessage request, [onReceive] is called with an
    object holding exactly the body's properties among the six message
    fields together with [hash]; and any other ReceiveMessage request
    whose body carries the same six fields (whatever else the two
    bodies hold) hands [onReceive] the very same object, hence the same
    [hash]. *)
Theorem receive_message_projection options request :
  reaches path_match options request → is_receive request →
  ∃ sms : gmap string value,
    (routes hash path_match options request).1 = [CallReceive (VObj sms)]
    ∧ (∀ key,
         sms !! key
         = if decide (key = "hash") then
             Some (VStr (hash (VObj (Lodash.pick (body request)
                                       MESSAGE_FIELDS))))
           else if decide (key ∈ MESSAGE_FIELDS) then own (body request) key
           else None)
    ∧ ∀ options' request',
        reaches path_match options' request' → is_receive request' →
        (∀ key, key ∈ MESSAGE_FIELDS →
                own (body request') key = own (body request) key) →
        (routes hash path_match options' request').1
        = [CallReceive (VObj sms)].
Proof.
  intros Hpath Hreceive. eexists. split; [|split].
  - rewrite receive_calls by assumption. reflexivity.
  - intros key. rewrite lookup_merge_hash by apply pick_hash_fresh.
    destruct (decide (key = "hash")); [reflexivity|].
    apply lookup_pick_own.
  - intros options' request' Hpath' Hreceive' Hagree.
    rewrite receive_calls by assumption. simpl.
    rewrite (pick_ext (body request) (body request')) by exact Hagree.
    reflexivity.
Qed.

(** What the POST route does with a ReceiveMessage request. *)
Lemma post_route_receive options request :
  is_receive request →
  post_route hash options request
  = let picked := Lodash.pick (body request) MESSAGE_FIELDS in
    let sms :=
      VObj (Lodash.merge ∅
              [picked; {[ "hash" := VStr (hash (VObj picked)) ]}]) in
    ([CallReceive sms],
     let err := (onReceive options sms).1 in
     let result := (onReceive options sms).2 in
     if JS.truthy err && negb (JS.truthy (error options)) then NextError err
     else if JS.truthy err && JS.truthy (error options) then
       response_ok
         (error_reply (JS.or (JS.get_prop err "message")
                             (VStr "Fail to process received message")))
     else if JS.truthy (reply options)
             && (0 <? Lodash.size
                        (Lodash.compact
                           (Lodash.map (JS.concat [] result) "to")))%nat
     then
       response_ok
         (VObj {[ "payload" :=
                    VObj (<["messages" := VArr (JS.concat [] result)]>
                            (<["task" := VStr TASK_SEND]>
                               (delete "error"
                                  {[ "success" := VBool true;
                                     "error" := VNull ]}))) ]})
     else response_ok success_reply).
Proof.
  intros (_ & Hsent & Hresult). unfold post_route.
  rewrite (task_test (query request) TASK_SENT) by discriminate.
  rewrite (task_test (query request) TASK_RESULT) by discriminate.
  apply task_is_false in Hsent, Hresult.
  unfold TASK_SENT, TASK_RESULT. rewrite Hsent, Hresult. simpl.
  destruct (onReceive options _) as [err result]. reflexivity.
Qed.

(** Whether some item carries a truthy [to] does not depend on which
    of the two flattenings is used. *)
Lemma reply_items_flatten result :
  (∃ item, item ∈ JS.concat [] result
           ∧ JS.truthy (Lodash.get item "to") = true)
  ↔ (∃ item, item ∈ spec_flatten result
             ∧ JS.truthy (Lodash.get item "to") = true).
Proof.
  destruct result; simpl; try reflexivity.
  - split; intros (item & Hin & Hto).
    + apply list_elem_of_singleton in Hin. subst item. discriminate.
    + inversion Hin.
  - split; intros (item & Hin & Hto).
    + apply list_elem_of_singleton in Hin. subst item. discriminate.
    + inversion Hin.
Qed.

(** The reply payload after [delete] and the two assignments. *)
Lemma reply_payload (messages : value) :
  <["messages" := messages]>
    (<["task" := VStr TASK_SEND]>
       (delete "error"
          ({[ "success" := VBool true; "error" := VNull ]}
           : gmap string value)))
  = {[ "success" := VBool true; "task" := VStr "send";
       "messages" := messages ]}.
Proof.
  apply map_eq. intros key. unfold TASK_SEND.
  destruct (decide (key = "messages")) as [->|Hm]; [reflexivity|].
  destruct (decide (key = "task")) as [->|Ht]; [reflexivity|].
  destruct (decide (key = "success")) as [->|Hs]; [reflexivity|].
  destruct (decide (key = "error")) as [->|He]; [reflexivity|].
  rewrite !lookup_insert_ne, lookup_delete_ne, !lookup_insert_ne by done.
  rewrite !lookup_singleton_ne by done. reflexivity.
Qed.

(** The invocation recorded for a ReceiveMessage request fixes the
    message its handler completion belongs to. *)
Lemma receive_completion options request sms err result :
  reaches path_match options request → authorized options request →
  is_receive request →
  (smssync hash path_match options request).1 = [CallReceive sms] →
  onReceive options sms = (err, result) →
  smssync hash path_match options request
  = ([CallReceive sms],
     if JS.truthy err && negb (JS.truthy (error options)) then NextError err
     else if JS.truthy err && JS.truthy (error options) then
       response_ok
         (error_reply (JS.or (JS.get_prop err "message")
                             (VStr "Fail to process received message")))
     else if JS.truthy (reply options)
             && (0 <? Lodash.size
                        (Lodash.compact
                           (Lodash.map (JS.concat [] result) "to")))%nat
     then
       response_ok
         (VObj {[ "payload" :=
                    VObj {[ "success" := VBool true; "task" := VStr "send";
                            "messages" := VArr (JS.concat [] result) ]} ]})
     else response_ok success_reply).
Proof.
  intros Hpath Hauth Hreceive Hcall Hdone.
  rewrite smssync_authorized in * by assumption.
  rewrite routes_post in * by (assumption || apply Hreceive).
  rewrite post_route_receive in * by assumption.
  simpl in Hcall. injection Hcall as Hsms. simpl.
  rewrite Hsms, Hdone, reply_payload. reflexivity.
Qed.

(** C4.  For a ReceiveMessage request whose handler succeeds (falsy
    [error]): if [options.reply] is truthy and some item of the
    flattened result has a truthy [to] (for a string: a non-empty one),
    the response is HTTP 200 with [{payload: {success: true, task:
    "send", messages: <flattened result>}}], a payload without [error]
    key; otherwise it is [{payload: {success: true, error: null}}]. *)
Theorem receive_success_envelope options request sms err result :
  reaches path_match options request → authorized options request →
  is_receive request →
  (smssync hash path_match options request).1 = [CallReceive sms] →
  onReceive options sms = (err, result) →
  JS.truthy err = false →
  let has_reply :=
    JS.truthy (reply options) = true
    ∧ ∃ item, item ∈ spec_flatten result
              ∧ JS.truthy (Lodash.get item "to") = true in
  let payload : gmap string value :=
    {[ "success" := VBool true; "task" := VStr "send";
       "messages" := VArr (spec_flatten result) ]} in
  (has_reply →
     (smssync hash path_match options request).2
     = Respond 200 (VObj {[ "payload" := VObj payload ]})
     ∧ payload !! "error" = None)
  ∧ (¬ has_reply →
     (smssync hash path_match options request).2
     = Respond 200
         (VObj {[ "payload" :=
                    VObj {[ "success" := VBool true; "error" := VNull ]} ]})).
Proof.
  intros Hpath Hauth Hreceive Hcall Hdone Hok has_reply payload.
  rewrite (receive_completion options request sms err result) by assumption.
  simpl. rewrite Hok. simpl. split.
  - intros [Hreply Hitem]. split; [|reflexivity].
    apply reply_items_flatten in Hitem as Hitem'.
    apply hasReply_exists in Hitem'. rewrite Hreply, Hitem'. simpl.
    assert (Hflat : JS.concat [] result = spec_flatten result).
    { destruct Hitem as (item & Hin & _).
      apply concat_spec_flatten; intros ->; inversion Hin. }
    unfold payload. rewrite Hflat. reflexivity.
  - intros Hnone.
    destruct (JS.truthy (reply options)) eqn:Hreply; [|reflexivity].
    destruct (0 <? _)%nat eqn:Hitems; [|reflexivity].
    exfalso. apply Hnone. split; [reflexivity|].
    apply reply_items_flatten, hasReply_exists. exact Hitems.
Qed.

(** C10.  For a ReceiveMessage request whose handler reports a failure
    (truthy [error]) and with [options.error] truthy, the response is
    HTTP 200 with [{payload: {success: false, error: <message>}}]
    whatever result the handler supplied and whatever [options.reply]
    is; the payload has neither [task] nor [messages]. *)
Theorem receive_failure_precedence options request sms err result :
  reaches path_match options request → authorized options request →
  is_receive request →
  (smssync hash path_match options request).1 = [CallReceive sms] →
  onReceive options sms = (err, result) →
  JS.truthy err = true →
  JS.truthy (error options) = true →
  let message :=
    JS.or (JS.get_prop err "message")
          (VStr "Fail to process received message") in
  let payload : gmap string value :=
    {[ "success" := VBool false; "error" := message ]} in
  (smssync hash path_match options request).2
  = Respond 200 (VObj {[ "payload" := VObj payload ]})
  ∧ payload !! "task" = None
  ∧ payload !! "messages" = None.
Proof.
  intros Hpath Hauth Hreceive Hcall Hdone Herr Hinline message payload.
  rewrite (receive_completion options request sms err result) by assumption.
  simpl. rewrite Herr, Hinline. simpl. repeat split.
Qed.

(** C5 (amended).  For a SendPoll request whose handler succeeds (falsy
    [error]), the response is HTTP 200 with [{payload: {task: "send",
    secret: options.secret, messages: m}}]: the configured secret
    itself, and for [m] the result when it is a sequence, the
    one-element sequence holding the result otherwise, [null] and
    [undefined] included. *)
Theorem send_poll_success options request err result :
  reaches path_match options request → authorized options request →
  is_send_poll request →
  onSend options = (err, result) →
  JS.truthy err = false →
  smssync hash path_match options request
  = ([CallSend],
     Respond 200
       (VObj {[ "payload" :=
                  VObj {[ "task" := VStr "send";
                          "secret" := secret options;
                          "messages" :=
                            VArr match result with
                                 | VArr items => items
                                 | _ => [result]
                                 end ]} ]})).
Proof.
  intros Hpath Hauth [Hm Htask] Hdone Hok.
  rewrite smssync_authorized by assumption.
  rewrite routes_get by assumption. unfold get_route.
  rewrite (task_test (query request) TASK_RESULT) by discriminate.
  apply task_is_false in Htask. unfold TASK_RESULT. rewrite Htask, Hdone.
  rewrite Hok. reflexivity.
Qed.

(** C9 (amended).  A SentAck request (always let through by the secret
    middleware) and an authorized QueuedPoll request are answered with
    HTTP 200 and [{queued_messages: s}], respectively [{message_uuids:
    s}], where [s] is the result when it is a sequence and the
    one-element sequence holding the result otherwise ([undefined] and
    [null] included), whatever [error] the handler passed and whatever
    [options.error] is: the outcome is never [next(error)] and never an
    error envelope. *)
Theorem sent_and_queued_always_render options request err result :
  reaches path_match options request →
  (method request = "POST" →
   query request !! "task" = Some (VStr "sent") →
   onSent options (Lodash.get (body request) "queued_messages")
   = (err, result) →
   smssync hash path_match options request
   = ([CallSent (Lodash.get (body request) "queued_messages")],
      Respond 200
        (VObj {[ "queued_messages" :=
                   VArr match result with
                        | VArr items => items
                        | _ => [result]
                        end ]})))
  ∧ (method request = "GET" →
     query request !! "task" = Some (VStr "result") →
     authorized options request →
     onQueued options = (err, result) →
     smssync hash path_match options request
     = ([CallQueued],
        Respond 200
          (VObj {[ "message_uuids" :=
                     VArr match result with
                          | VArr items => items
                          | _ => [result]
                          end ]}))).
Proof.
  intros Hpath. split.
  - intros Hm Htask Hdone.
    rewrite smssync_authorized by (apply exempt_authorized; split; auto).
    rewrite routes_post by assumption. unfold post_route.
    rewrite (task_test (query request) TASK_SENT) by discriminate.
    apply task_is_true in Htask. unfold TASK_SENT. rewrite Htask, Hdone.
    reflexivity.
  - intros Hm Htask Hauth Hdone.
    rewrite smssync_authorized by assumption.
    rewrite routes_get by assumption. unfold get_route.
    rewrite (task_test (query request) TASK_RESULT) by discriminate.
    apply task_is_true in Htask. unfold TASK_RESULT. rewrite Htask, Hdone.
    reflexivity.
Qed.

(** Two readings of one handler completion name the same arguments. *)
Ltac same_completion Hrun Hdone :=
  let Heq := fresh "Heq" in
  match type of Hrun with
  | _ = ?p =>
      match type of Hdone with
      | _ = ?q =>
          assert (Heq : p = q) by (rewrite <- Hrun; exact Hdone);
          injection Heq as -> ->
      end
  end.

(** A rejected request never reaches a route: with [options.error]
    truthy the middleware renders its own error inline. *)
Lemma rejected_inline options request :
  JS.truthy (error options) = true →
  ¬ authorized options request →
  smssync hash path_match options request
  = ([], Respond 200 (error_reply (VStr "Secret Key Mismatch"))).
Proof.
  intros Hinline Hrejected. unfold authorized in Hrejected. unfold smssync.
  destruct (protected options); [|contradiction].
  unfold secret_middleware in *.
  destruct (_ || _); [contradiction|].
  simpl. rewrite Hinline. reflexivity.
Qed.

(** C8.  With [options.error] truthy (failures rendered inline): a
    request the secret middleware rejects is answered with the error text
    "Secret Key Mismatch", whatever its task; and when the handler of a
    ReceiveMessage, DeliveryResult or SendPoll request fails with an
    error carrying no (truthy) [message], the error text is the
    specification's default for that task. *)
Theorem inline_failure_messages options request :
  JS.truthy (error options) = true →
  (¬ authorized options request →
   smssync hash path_match options request
   = ([], Respond 200
            (VObj {[ "payload" :=
                       VObj {[ "success" := VBool false;
                               "error" := VStr "Secret Key Mismatch" ]} ]})))
  ∧ (∀ c err result text,
       authorized options request →
       (smssync hash path_match options request).1 = [c] →
       completion_of options c = (err, result) →
       JS.truthy err = true →
       JS.truthy (JS.get_prop err "message") = false →
       spec_default_message (task_of_call c) = Some text →
       (smssync hash path_match options request).2
       = Respond 200
           (VObj {[ "payload" :=
                      VObj {[ "success" := VBool false;
                              "error" := VStr text ]} ]})).
Proof.
  intros Hinline. split; [apply rejected_inline; assumption|].
  intros c err result text Hauth Hcall Hdone Herr Hnomsg Htext.
  rewrite smssync_authorized in * by assumption.
  unfold routes in *.
  destruct (routed path_match "POST" options request).
  - unfold post_route in *.
    destruct (JS.truthy _ && JS.strict_eq _ (VStr TASK_SENT)).
    { destruct (onSent options _). cbn [fst] in Hcall.
      injection Hcall as <-. discriminate Htext. }
    destruct (JS.truthy _ && JS.strict_eq _ (VStr TASK_RESULT)).
    { destruct (onDelivered options _) as [err' result'] eqn:Hrun.
      cbn [fst] in Hcall. injection Hcall as <-.
    cbn [completion_of task_of_call spec_default_message] in Hdone, Htext.
      same_completion Hrun Hdone.
      injection Htext as <-. simpl.
      rewrite Herr, Hinline. simpl. unfold JS.or. rewrite Hnomsg.
      reflexivity. }
    destruct (onReceive options _) as [err' result'] eqn:Hrun.
    cbn [fst] in Hcall. injection Hcall as <-.
    cbn [completion_of task_of_call spec_default_message] in Hdone, Htext.
    same_completion Hrun Hdone.
    injection Htext as <-. simpl.
    rewrite Herr, Hinline. simpl. unfold JS.or. rewrite Hnomsg.
    reflexivity.
  - destruct (routed path_match "GET" options request);
      [|discriminate Hcall].
    unfold get_route in *.
    destruct (JS.truthy _ && JS.strict_eq _ (VStr TASK_RESULT)).
    { destruct (onQueued options). cbn [fst] in Hcall.
      injection Hcall as <-. discriminate Htext. }
    destruct (onSend options) as [err' result'] eqn:Hrun.
    cbn [fst] in Hcall. injection Hcall as <-.
    cbn [completion_of task_of_call spec_default_message] in Hdone, Htext.
    same_completion Hrun Hdone.
    injection Htext as <-. simpl.
    rewrite Herr, Hinline. simpl. unfold JS.or. rewrite Hnomsg.
    reflexivity.
Qed.

(** C7 (amended).  The secret the middleware checks is the [secret]
    query parameter whenever that parameter is truthy (for a string:
    not empty), whatever the body holds; when the query has no [secret]
    or a falsy one, it is the body's [secret] ([undefined] if the body
    has none). *)
Theorem request_secret_precedence request :
  (∀ q, query request !! "secret" = Some q → JS.truthy q = true →
        request_secret request = q)
  ∧ ((query request !! "secret" = None
      ∨ ∃ q, query request !! "secret" = Some q ∧ JS.truthy q = false) →
     request_secret request
     = default VUndefined (own (body request) "secret")).
Proof.
  unfold request_secret, JS.or at 1 3. simpl. split.
  - intros q -> Hq. simpl. unfold JS.or. rewrite Hq. reflexivity.
  - assert (Hbody : JS.get_prop
                      (if JS.truthy (body request) then body request
                       else VObj ∅) "secret"
                    = default VUndefined (own (body request) "secret")).
    { destruct (body request) as [| |[]|n|str| |]; simpl;
        try reflexivity; destruct (negb _); reflexivity. }
    intros [-> | (q & -> & Hq)]; simpl; unfold JS.or.
    + exact Hbody.
    + rewrite Hq. exact Hbody.
Qed.

End Properties.

(** ** The properties on the sample requests *)

Lemma secret_mismatch_short_circuits_witness :
  smssync sample_hash sample_match (test_options (VBool true))
    anonymous_request
  = ([], Respond 200
           (VObj {[ "payload" :=
                      VObj {[ "success" := VBool false;
                              "error" := VStr "Secret Key Mismatch" ]} ]})).
Proof.
  apply (secret_mismatch_short_circuits sample_hash sample_match
           (test_options (VBool true)) anonymous_request "smssync").
  - reflexivity.
  - discriminate.
  - vm_compute. discriminate.
  - intros [Hpost _]. discriminate Hpost.
Defined.

Lemma classification_follows_table_witness :
  ∃ c,
    (routes sample_hash sample_match (test_options (VBool true))
       sent_request).1 = [c]
    ∧ task_of_call c = SentAck.
Proof.
  destruct (classification_follows_table sample_hash sample_match
              (test_options (VBool true)) sent_request)
    as (c & Hcall & Htask & _).
  - reflexivity.
  - left. reflexivity.
  - exists c. split; [exact Hcall|].
    change (Some SentAck = Some (task_of_call c)) in Htask. congruence.
Defined.

Lemma receive_message_projection_witness :
  (routes sample_hash sample_match (test_options (VBool true))
     receive_request).1 = [CallReceive (VObj received_sms)]
  ∧ (routes sample_hash sample_match (test_options (VBool true))
       receive_request_bare).1 = [CallReceive (VObj received_sms)].
Proof.
  assert (Hreceive : ∀ request,
            method request = "POST" →
            query request = {[ "secret" := VStr "smssync" ]} →
            is_receive request).
  { intros request Hm Hq. unfold is_receive. rewrite Hm, Hq.
    split; [reflexivity|]. split; vm_compute; discriminate. }
  destruct (receive_message_projection sample_hash sample_match
              (test_options (VBool true)) receive_request)
    as (sms & Hcall & _ & Hsame).
  - reflexivity.
  - apply Hreceive; reflexivity.
  - assert (Hsms : sms = received_sms).
    { vm_compute in Hcall. injection Hcall as <-. vm_compute. reflexivity. }
    rewrite <- Hsms. split; [exact Hcall|].
    apply Hsame.
    + reflexivity.
    + apply Hreceive; reflexivity.
    + intros key Hin. apply list_elem_of_In in Hin. simpl in Hin.
      repeat (destruct Hin as [<- | Hin]; [vm_compute; reflexivity|]).
      contradiction.
Defined.

(** A POST without [task] in its query is a ReceiveMessage request. *)
Lemma is_receive_no_task request :
  method request = "POST" → query request !! "task" = None →
  is_receive request.
Proof.
  intros Hm Htask. unfold is_receive. rewrite Hm, Htask.
  repeat split; discriminate.
Qed.

Lemma receive_success_envelope_witness :
  (smssync sample_hash sample_match (test_options (VBool true))
     receive_request).2
  = Respond 200
      (VObj {[ "payload" :=
                 VObj {[ "success" := VBool true; "task" := VStr "send";
                         "messages" :=
                           VArr [VObj {[ "to" := VStr "+1";
                                         "uuid" := VStr "m1";
                                         "message" := VStr "hi" ]}] ]} ]})
  ∧ (smssync sample_hash sample_match (test_options (VBool true))
       empty_query_secret_request).2
    = Respond 200
        (VObj {[ "payload" :=
                   VObj {[ "success" := VBool true; "error" := VNull ]} ]}).
Proof.
  split.
  - destruct (receive_success_envelope sample_hash sample_match
                (test_options (VBool true)) receive_request
                (VObj received_sms) VNull
                (VObj {[ "to" := VStr "+1"; "uuid" := VStr "m1";
                         "message" := VStr "hi" ]})) as [Hreply _].
    + reflexivity.
    + vm_compute. reflexivity.
    + apply is_receive_no_task; reflexivity.
    + vm_compute. reflexivity.
    + vm_compute. reflexivity.
    + reflexivity.
    + destruct Hreply as [Hresponse _]; [|exact Hresponse].
      split; [reflexivity|]. eexists. split; [left|]. reflexivity.
  - destruct (receive_success_envelope sample_hash sample_match
                (test_options (VBool true)) empty_query_secret_request
                (VObj {[ "message" := VStr "hi"; "hash" := VStr "" ]}) VNull
                (VObj {[ "to" := VUndefined; "uuid" := VUndefined;
                         "message" := VStr "hi" ]})) as [_ Hplain].
    + reflexivity.
    + vm_compute. reflexivity.
    + apply is_receive_no_task; reflexivity.
    + vm_compute. reflexivity.
    + vm_compute. reflexivity.
    + reflexivity.
    + apply Hplain. intros (_ & item & Hin & Hto).
      apply list_elem_of_singleton in Hin. subst item. discriminate Hto.
Defined.

Lemma receive_failure_precedence_witness :
  (smssync sample_hash sample_match (failing_options (VBool true))
     receive_request).2
  = Respond 200
      (VObj {[ "payload" :=
                 VObj {[ "success" := VBool false;
                         "error" :=
                           VStr "Fail to process received message" ]} ]}).
Proof.
  destruct (receive_failure_precedence sample_hash sample_match
              (failing_options (VBool true)) receive_request
              (VObj received_sms) (JS.Error "")
              (VObj {[ "to" := VStr "+1" ]})) as [Hresponse _].
  - reflexivity.
  - vm_compute. reflexivity.
  - apply is_receive_no_task; reflexivity.
  - vm_compute. reflexivity.
  - reflexivity.
  - reflexivity.
  - reflexivity.
  - exact Hresponse.
Defined.

Lemma send_poll_success_witness :
  smssync sample_hash sample_match (test_options (VBool true)) send_request
  = ([CallSend],
     Respond 200
       (VObj {[ "payload" :=
                  VObj {[ "task" := VStr "send";
                          "secret" := VStr "smssync";
                          "messages" :=
                            VArr [VObj {[ "to" := VStr "+1";
                                          "message" := VStr "x";
                                          "uuid" := VStr "u1" ]}] ]} ]})).
Proof.
  apply (send_poll_success sample_hash sample_match
           (test_options (VBool true)) send_request VNull
           (VArr [VObj {[ "to" := VStr "+1"; "message" := VStr "x";
                          "uuid" := VStr "u1" ]}])).
  - reflexivity.
  - vm_compute. reflexivity.
  - split; [reflexivity|]. vm_compute. discriminate.
  - reflexivity.
  - reflexivity.
Defined.

Lemma sent_and_queued_always_render_witness :
  smssync sample_hash sample_match (failing_options (VBool false))
    sent_request
  = ([CallSent (VArr [VStr "u1"])],
     Respond 200 (VObj {[ "queued_messages" := VArr [VUndefined] ]}))
  ∧ smssync sample_hash sample_match (failing_options (VBool false))
      queued_request
    = ([CallQueued],
       Respond 200 (VObj {[ "message_uuids" := VArr [VNull] ]})).
Proof.
  split.
  - apply (sent_and_queued_always_render sample_hash sample_match
             (failing_options (VBool false)) sent_request
             (JS.Error "") VUndefined); reflexivity.
  - apply (sent_and_queued_always_render sample_hash sample_match
             (failing_options (VBool false)) queued_request
             (JS.Error "") VNull); reflexivity.
Defined.

Lemma inline_failure_messages_witness :
  smssync sample_hash sample_match (failing_options (VBool true))
    anonymous_request
  = ([], Respond 200 (error_reply (VStr "Secret Key Mismatch")))
  ∧ (smssync sample_hash sample_match (failing_options (VBool true))
       receive_request).2
    = Respond 200 (error_reply (VStr "Fail to process received message"))
  ∧ (smssync sample_hash sample_match (failing_options (VBool true))
       delivered_request).2
    = Respond 200 (error_reply (VStr "Fail to process delivery reports"))
  ∧ (smssync sample_hash sample_match (failing_options (VBool true))
       send_request).2
    = Respond 200 (error_reply (VStr "Fail to obtain message to send")).
Proof.
  split; [|split; [|split]].
  - apply (inline_failure_messages sample_hash sample_match
             (failing_options (VBool true)) anonymous_request);
      [reflexivity|].
    intros Hauth. vm_compute in Hauth. discriminate Hauth.
  - apply (proj2 (inline_failure_messages sample_hash sample_match
                    (failing_options (VBool true)) receive_request
                    eq_refl)
             (CallReceive (VObj received_sms)) (JS.Error "")
             (VObj {[ "to" := VStr "+1" ]}));
      solve [reflexivity | vm_compute; reflexivity].
  - apply (proj2 (inline_failure_messages sample_hash sample_match
                    (failing_options (VBool true)) delivered_request
                    eq_refl)
             (CallDelivered (VArr [VObj {[ "uuid" := VStr "u1" ]}]))
             (JS.Error "") VUndefined);
      solve [reflexivity | vm_compute; reflexivity].
  - apply (proj2 (inline_failure_messages sample_hash sample_match
                    (failing_options (VBool true)) send_request eq_refl)
             CallSend (JS.Error "") VUndefined);
      solve [reflexivity | vm_compute; reflexivity].
Defined.

Lemma request_secret_precedence_witness :
  request_secret receive_request = VStr "smssync"
  ∧ request_secret anonymous_request = VUndefined
  ∧ request_secret empty_query_secret_request = VStr "smssync".
Proof.
  split; [|split].
  - apply (proj1 (request_secret_precedence receive_request)); reflexivity.
  - apply (proj2 (request_secret_precedence anonymous_request)).
    left. reflexivity.
  - apply (proj2 (request_secret_precedence empty_query_secret_request)).
    right. exists (VStr ""). split; reflexivity.
Defined.

(** ** Where the specification's wording and the program part *)

(** C7, as worded, fails on [POST /smssync?secret=] with the secret in
    the body: query and body both carry a [secret], yet the one checked
    is the body's, and the request is let through. *)
Lemma query_secret_precedence_counterexample :
  query empty_query_secret_request !! "secret" = Some (VStr "")
  ∧ own (body empty_query_secret_request) "secret" = Some (VStr "smssync")
  ∧ request_secret empty_query_secret_request = VStr "smssync"
  ∧ request_secret empty_query_secret_request ≠ VStr ""
  ∧ authorized (test_options (VBool true)) empty_query_secret_request.
Proof.
  split; [|split; [|split; [|split]]]; try (vm_compute; reflexivity).
  vm_compute. discriminate.
Qed.

(** C6, as worded, fails on [null] and [undefined]: [[].concat] keeps
    them as the single element of the sequence, so a poll whose handler
    completes with no result is answered with a one-element sequence. *)
Lemma flatten_null_counterexample :
  JS.concat [] VNull ≠ spec_flatten VNull
  ∧ JS.concat [] VUndefined ≠ spec_flatten VUndefined
  ∧ smssync sample_hash sample_match idle_options send_request
    = ([CallSend],
       Respond 200
         (VObj {[ "payload" :=
                    VObj {[ "task" := VStr "send";
                            "secret" := VStr "smssync";
                            "messages" := VArr [VUndefined] ]} ]}))
  ∧ smssync sample_hash sample_match idle_options queued_request
    = ([CallQueued],
       Respond 200 (VObj {[ "message_uuids" := VArr [VNull] ]})).
Proof.
  split; [|split; [|split]]; try discriminate; vm_compute; reflexivity.
Qed.

(** ** Further properties of the secret middleware *)

(** The exemption test of the middleware, read as a proposition. *)
Lemma allowed_iff_exempt request :
  bool_decide (method request = "POST") &&
  (JS.strict_eq (JS.get_prop (VObj (query request)) "task") (VStr TASK_SENT) ||
   JS.strict_eq (JS.get_prop (VObj (query request)) "task") (VStr TASK_RESULT))
  = true
  ↔ is_exempt request.
Proof.
  rewrite !strict_eq_task. unfold is_exempt, TASK_SENT, TASK_RESULT.
  rewrite andb_true_iff, orb_true_iff, bool_decide_eq_true, !task_is_true.
  reflexivity.
Qed.

(** The middleware calls [next()] exactly when the secret is valid or
    the request is exempt. *)
Lemma secret_middleware_next options request :
  secret_middleware options request = Next
  ↔ JS.strict_eq (secret options) (request_secret request) = true
    ∨ is_exempt request.
Proof.
  rewrite <- allowed_iff_exempt, <- orb_true_iff. unfold secret_middleware.
  destruct (_ || _); split; try reflexivity; try discriminate.
  simpl. destruct (JS.truthy (error options)); discriminate.
Qed.

(** A truthy [secret] in the query is the secret of the request. *)
Lemma request_secret_query request q :
  query request !! "secret" = Some q → JS.truthy q = true →
  request_secret request = q.
Proof.
  intros Hq Htruthy. unfold request_secret, JS.or at 1 3. simpl.
  rewrite Hq. simpl. unfold JS.or. rewrite Htruthy. reflexivity.
Qed.

(** Without a truthy [secret] in the query, the body's is used. *)
Lemma request_secret_body request :
  JS.truthy (default VUndefined (query request !! "secret")) = false →
  request_secret request = default VUndefined (own (body request) "secret").
Proof.
  intros Hfalsy. unfold request_secret, JS.or at 1 3. simpl.
  rewrite Hfalsy.
  destruct (body request) as [| |[]|n|str| |]; simpl;
    try reflexivity; destruct (negb _); reflexivity.
Qed.

(** A non-empty string as secret switches the protection on. *)
Lemma protected_string options s :
  secret options = VStr s → s ≠ "" → protected options = true.
Proof.
  intros Hsecret Hnonempty. unfold protected. rewrite Hsecret. simpl.
  rewrite bool_decide_eq_false_2 by done. reflexivity.
Qed.

(** X1.  With a non-empty string as configured secret, a request gets
    past the secret middleware exactly when its secret equals the
    configured one or it is a POST with [task] [sent] or [result]. *)
Theorem authorized_iff_valid_or_exempt options request s :
  secret options = VStr s → s ≠ "" →
  authorized options request
  ↔ request_secret request = VStr s ∨ is_exempt request.
Proof.
  intros Hsecret Hnonempty. unfold authorized.
  rewrite (protected_string options s) by assumption.
  rewrite secret_middleware_next, Hsecret, strict_eq_str_l. reflexivity.
Qed.

(** X2.  Every request gets past the secret check exactly when the
    configured secret is [undefined], [null], a boolean, a number, the
    empty string, the empty array or the empty object: only a non-empty
    string, array or object switches the protection on. *)
Theorem unprotected_iff options :
  (∀ request, authorized options request)
  ↔ match secret options with
    | VStr s => s = ""
    | VArr items => items = []
    | VObj props => props = ∅
    | _ => True
    end.
Proof.
  unfold authorized, protected. split.
  - intros Hall. specialize (Hall anonymous_request).
    destruct (secret options) as [| |b|n|s|items|props] eqn:Hsecret;
      try exact I; simpl in Hall.
    + destruct (decide (s = "")) as [Hs|Hs]; [exact Hs|].
      rewrite bool_decide_eq_false_2 in Hall by done. simpl in Hall.
      apply secret_middleware_next in Hall as [Hvalid|[Hpost _]];
        [rewrite Hsecret in Hvalid|]; discriminate.
    + destruct (decide (items = [])) as [Hi|Hi]; [exact Hi|].
      rewrite bool_decide_eq_false_2 in Hall by done. simpl in Hall.
      apply secret_middleware_next in Hall as [Hvalid|[Hpost _]];
        [rewrite Hsecret in Hvalid|]; discriminate.
    + destruct (decide (props = ∅)) as [Hp|Hp]; [exact Hp|].
      rewrite bool_decide_eq_false_2 in Hall by done. simpl in Hall.
      apply secret_middleware_next in Hall as [Hvalid|[Hpost _]];
        [rewrite Hsecret in Hvalid|]; discriminate.
  - intros Hshape request.
    destruct (secret options) as [| |b|n|s|items|props]; simpl;
      try reflexivity.
    + destruct b; reflexivity.
    + destruct (negb _); reflexivity.
    + rewrite bool_decide_eq_true_2 by done. reflexivity.
    + rewrite bool_decide_eq_true_2 by done. reflexivity.
    + rewrite bool_decide_eq_true_2 by done. reflexivity.
Qed.

(** X3.  A truthy [secret] in the query that differs from the configured
    one gets a non-exempt request rejected whatever the body holds, the
    configured secret included. *)
Theorem wrong_query_secret_rejects options request s q :
  secret options = VStr s → s ≠ "" →
  query request !! "secret" = Some q → JS.truthy q = true → q ≠ VStr s →
  ¬ is_exempt request →
  ¬ authorized options request.
Proof.
  intros Hsecret Hnonempty Hq Htruthy Hwrong Hexempt. unfold authorized.
  rewrite (protected_string options s) by assumption.
  rewrite secret_middleware_next, Hsecret, strict_eq_str_l.
  rewrite (request_secret_query request q) by assumption.
  intros [Hvalid|Hex]; contradiction.
Qed.

(** X4.  When the query carries no [secret], or a falsy one, the
    configured secret in the body is enough to get past the secret
    middleware. *)
Theorem body_secret_authorizes options request s :
  secret options = VStr s →
  JS.truthy (default VUndefined (query request !! "secret")) = false →
  own (body request) "secret" = Some (VStr s) →
  authorized options request.
Proof.
  intros Hsecret Hquery Hbody. unfold authorized.
  destruct (protected options); [|reflexivity].
  apply secret_middleware_next. left.
  rewrite (request_secret_body request Hquery), Hbody, Hsecret. simpl.
  apply bool_decide_eq_true_2. reflexivity.
Qed.

(** ** Further properties of the routes *)

Section MoreProperties.

Variable hash : value → string.
Variable path_match : string → string → bool.

(** The routes call one handler when one of them matches, none
    otherwise. *)
Lemma routes_calls_shape options request :
  ((routes hash path_match options request).1 = []
   ∧ (routes hash path_match options request).2 = Next
   ∧ routed path_match "POST" options request = false
   ∧ routed path_match "GET" options request = false)
  ∨ (∃ c, (routes hash path_match options request).1 = [c]
          ∧ (routed path_match "POST" options request = true
             ∨ routed path_match "GET" options request = true)).
Proof.
  unfold routes.
  destruct (routed path_match "POST" options request).
  - right. unfold post_route.
    destruct (JS.truthy _ && JS.strict_eq _ (VStr TASK_SENT)).
    { destruct (onSent options _). eexists. split; [reflexivity|]. auto. }
    destruct (JS.truthy _ && JS.strict_eq _ (VStr TASK_RESULT)).
    { destruct (onDelivered options _). eexists. split; [reflexivity|]. auto. }
    destruct (onReceive options _). eexists. split; [reflexivity|]. auto.
  - destruct (routed path_match "GET" options request); [|left; auto].
    right. unfold get_route.
    destruct (JS.truthy _ && JS.strict_eq _ (VStr TASK_RESULT)).
    { destruct (onQueued options). eexists. split; [reflexivity|]. auto. }
    destruct (onSend options). eexists. split; [reflexivity|]. auto.
Qed.

(** X5.  Every request calls at most one handler, and it calls one
    exactly when it gets past the secret middleware and matches the POST
    or the GET route. *)
Theorem handler_called_iff options request :
  ((smssync hash path_match options request).1 = []
   ∨ ∃ c, (smssync hash path_match options request).1 = [c])
  ∧ ((∃ c, (smssync hash path_match options request).1 = [c])
     ↔ authorized options request
       ∧ (routed path_match "POST" options request = true
          ∨ routed path_match "GET" options request = true)).
Proof.
  unfold authorized, smssync.
  destruct (if protected options then secret_middleware options request
            else Next) eqn:Hguard.
  1,2,4: (split; [left; reflexivity|]; split;
          [intros [c Hc]; discriminate Hc | intros [Hn _]; discriminate Hn]).
  destruct (routes_calls_shape options request)
    as [(Hnone & _ & Hpost & Hget) | (c & Hc & Hrouted)].
  - split; [left; exact Hnone|]. rewrite Hnone, Hpost, Hget. split.
    + intros [c Hc]. discriminate Hc.
    + intros [_ [H|H]]; discriminate H.
  - split; [right; eauto|]. split; [auto|eauto].
Qed.




(** Identify the completion named in [Hdone] with the one the route
    obtained in [Hrun]. *)
Ltac unify_completion Hrun Hdone :=
  let Heq := fresh "Heq" in
  match type of Hrun with
  | _ = ?ran =>
      match type of Hdone with
      | _ = ?named =>
          assert (Heq : ran = named) by (rewrite <- Hrun; exact Hdone);
          injection Heq as -> ->
      end
  end.

(** What becomes of a handler failure, for the three handlers whose
    error is looked at. *)
Lemma failure_outcome options request c err result text :
  authorized options request →
  (smssync hash path_match options request).1 = [c] →
  completion_of options c = (err, result) →
  JS.truthy err = true →
  spec_default_message (task_of_call c) = Some text →
  (smssync hash path_match options request).2
  = if JS.truthy (error options)
    then response_ok
           (error_reply (JS.or (JS.get_prop err "message") (VStr text)))
    else NextError err.
Proof.
  intros Hauth Hcall Hdone Herr Htext.
  rewrite smssync_authorized in * by assumption.
  unfold routes in *.
  destruct (routed path_match "POST" options request).
  - unfold post_route in *.
    destruct (JS.truthy _ && JS.strict_eq _ (VStr TASK_SENT)).
    { destruct (onSent options _). cbn [fst] in Hcall.
      injection Hcall as <-. discriminate Htext. }
    destruct (JS.truthy _ && JS.strict_eq _ (VStr TASK_RESULT)).
    { destruct (onDelivered options _) as [err' result'] eqn:Hrun.
      cbn [fst] in Hcall. injection Hcall as <-.
      cbn [completion_of task_of_call spec_default_message] in Hdone, Htext.
      unify_completion Hrun Hdone.
      injection Htext as <-. simpl.
      rewrite Herr. destruct (JS.truthy (error options)); reflexivity. }
    destruct (onReceive options _) as [err' result'] eqn:Hrun.
    cbn [fst] in Hcall. injection Hcall as <-.
    cbn [completion_of task_of_call spec_default_message] in Hdone, Htext.
    unify_completion Hrun Hdone.
    injection Htext as <-. simpl.
    rewrite Herr. destruct (JS.truthy (error options)); reflexivity.
  - destruct (routed path_match "GET" options request);
      [|discriminate Hcall].
    unfold get_route in *.
    destruct (JS.truthy _ && JS.strict_eq _ (VStr TASK_RESULT)).
    { destruct (onQueued options). cbn [fst] in Hcall.
      injection Hcall as <-. discriminate Htext. }
    destruct (onSend options) as [err' result'] eqn:Hrun.
    cbn [fst] in Hcall. injection Hcall as <-.
    cbn [completion_of task_of_call spec_default_message] in Hdone, Htext.
    unify_completion Hrun Hdone.
    injection Htext as <-. simpl.
    rewrite Herr. destruct (JS.truthy (error options)); reflexivity.
Qed.

(** X7.  With [options.error] falsy, the error a ReceiveMessage,
    DeliveryResult or SendPoll handler fails with is passed to
    [next(error)] as it is, and no response is sent. *)
Theorem handler_failure_forwarded options request c err result :
  JS.truthy (error options) = false →
  authorized options request →
  (smssync hash path_match options request).1 = [c] →
  completion_of options c = (err, result) →
  JS.truthy err = true →
  task_of_call c ≠ SentAck → task_of_call c ≠ QueuedPoll →
  (smssync hash path_match options request).2 = NextError err.
Proof.
  intros Hforward Hauth Hcall Hdone Herr Hsent Hqueued.
  destruct (spec_default_message (task_of_call c)) as [text|] eqn:Htext.
  - rewrite (failure_outcome options request c err result text)
      by assumption.
    rewrite Hforward. reflexivity.
  - destruct c; try discriminate Htext; contradiction.
Qed.

(** X8.  With [options.error] truthy, when a ReceiveMessage,
    DeliveryResult or SendPoll handler fails with an error whose
    [message] is truthy, that message is the [error] of the envelope,
    untouched. *)
Theorem inline_failure_keeps_message options request c err result :
  JS.truthy (error options) = true →
  authorized options request →
  (smssync hash path_match options request).1 = [c] →
  completion_of options c = (err, result) →
  JS.truthy err = true →
  JS.truthy (JS.get_prop err "message") = true →
  task_of_call c ≠ SentAck → task_of_call c ≠ QueuedPoll →
  (smssync hash path_match options request).2
  = Respond 200
      (VObj {[ "payload" :=
                 VObj {[ "success" := VBool false;
                         "error" := JS.get_prop err "message" ]} ]}).
Proof.
  intros Hinline Hauth Hcall Hdone Herr Hmessage Hsent Hqueued.
  destruct (spec_default_message (task_of_call c)) as [text|] eqn:Htext.
  - rewrite (failure_outcome options request c err result text)
      by assumption.
    rewrite Hinline. unfold JS.or. rewrite Hmessage. reflexivity.
  - destruct c; try discriminate Htext; contradiction.
Qed.

(** X9.  A DeliveryResult request is served whatever secret it carries
    or lacks: [onDelivered] gets [body.message_result] ([undefined] when
    the body has none), and only its error decides the answer; a falsy
    error gives [{payload: {success: true, error: null}}] whatever the
    result is. *)
Theorem delivery_result_outcome options request err result :
  reaches path_match options request →
  method request = "POST" →
  query request !! "task" = Some (VStr "result") →
  onDelivered options (default VUndefined (own (body request) "message_result"))
  = (err, result) →
  smssync hash path_match options request
  = ([CallDelivered
        (default VUndefined (own (body request) "message_result"))],
     if JS.truthy err then
       if JS.truthy (error options) then
         Respond 200
           (error_reply
              (JS.or (JS.get_prop err "message")
                     (VStr "Fail to process delivery reports")))
       else NextError err
     else
       Respond 200
         (VObj {[ "payload" :=
                    VObj {[ "success" := VBool true; "error" := VNull ]} ]})).
Proof.
  intros Hpath Hm Htask Hdone.
  rewrite smssync_authorized by (apply exempt_authorized; split; auto).
  rewrite routes_post by assumption. unfold post_route.
  rewrite (task_test (query request) TASK_SENT) by discriminate.
  rewrite (task_test (query request) TASK_RESULT) by discriminate.
  unfold TASK_SENT, TASK_RESULT. rewrite Htask. simpl.
  assert (Hget : Lodash.get (body request) "message_result"
                 = default VUndefined (own (body request) "message_result")).
  { destruct (body request); reflexivity. }
  rewrite Hget, Hdone.
  destruct (JS.truthy err), (JS.truthy (error options)); reflexivity.
Qed.

(** X10.  With a handler that hands back what it was given, a SentAck
    request is answered with the very sequence of identifiers it sent;
    a body without [queued_messages] gives the handler [undefined] and
    the answer [{queued_messages: [undefined]}]. *)
Theorem sent_ack_echo options request :
  reaches path_match options request →
  method request = "POST" →
  query request !! "task" = Some (VStr "sent") →
  (∀ queued, (onSent options queued).2 = queued) →
  (∀ ids, own (body request) "queued_messages" = Some (VArr ids) →
     smssync hash path_match options request
     = ([CallSent (VArr ids)],
        Respond 200 (VObj {[ "queued_messages" := VArr ids ]})))
  ∧ (own (body request) "queued_messages" = None →
     smssync hash path_match options request
     = ([CallSent VUndefined],
        Respond 200 (VObj {[ "queued_messages" := VArr [VUndefined] ]}))).
Proof.
  intros Hpath Hm Htask Hecho.
  rewrite smssync_authorized by (apply exempt_authorized; split; auto).
  rewrite routes_post by assumption. unfold post_route.
  rewrite (task_test (query request) TASK_SENT) by discriminate.
  unfold TASK_SENT. rewrite Htask. simpl.
  assert (Hget : Lodash.get (body request) "queued_messages"
                 = default VUndefined (own (body request) "queued_messages")).
  { destruct (body request); reflexivity. }
  rewrite Hget. split.
  - intros ids Hids. rewrite Hids. simpl.
    specialize (Hecho (VArr ids)).
    destruct (onSent options (VArr ids)) as [err result].
    simpl in Hecho. subst result. reflexivity.
  - intros Hnone. rewrite Hnone. simpl.
    specialize (Hecho VUndefined).
    destruct (onSent options VUndefined) as [err result].
    simpl in Hecho. subst result. reflexivity.
Qed.

(** X11.  A ReceiveMessage request whose body holds none of the six
    message fields (an empty body, an array, a body of other fields
    only) still reaches [onReceive]: the message is the single property
    [hash], the hash of the empty object. *)
Theorem receive_without_fields options request :
  reaches path_match options request → is_receive request →
  (∀ key, key ∈ MESSAGE_FIELDS → own (body request) key = None) →
  (routes hash path_match options request).1
  = [CallReceive (VObj {[ "hash" := VStr (hash (VObj ∅)) ]})].
Proof.
  intros Hpath Hreceive Hnone.
  rewrite receive_calls by assumption. simpl.
  assert (Hpick : Lodash.pick (body request) MESSAGE_FIELDS = ∅).
  { apply map_eq. intros key. rewrite lookup_pick_own, lookup_empty.
    destruct (decide (key ∈ MESSAGE_FIELDS)); [apply Hnone; assumption|].
    reflexivity. }
  rewrite Hpick. reflexivity.
Qed.

(** X14.  A SendPoll request that gets past the secret middleware is
    served exactly as the first version of the router served it. *)
Theorem send_poll_as_legacy options request :
  reaches path_match options request → authorized options request →
  is_send_poll request →
  smssync hash path_match options request
  = Legacy.smssync path_match options request.
Proof.
  intros Hpath Hauth [Hm Htask].
  rewrite smssync_authorized by assumption.
  rewrite routes_get by assumption.
  unfold Legacy.smssync, routed. unfold reaches in Hpath.
  rewrite Hm, Hpath. simpl.
  unfold get_route, Legacy.get_route.
  rewrite (task_test (query request) TASK_RESULT) by discriminate.
  apply task_is_false in Htask. unfold TASK_RESULT. rewrite Htask.
  reflexivity.
Qed.

End MoreProperties.

(** X15.  Where the two versions of the router part on a successful
    ReceiveMessage: the first version attaches [task] and [messages]
    whenever [options.reply] is truthy, this one only when some item has
    a truthy [to].  For one and the same handler completion the two
    answers agree exactly when the handler failed, [options.reply] is
    falsy, or some item of the result has a truthy [to]. *)
Theorem receive_agrees_with_legacy_iff
    (hash : value → string) (path_match : string → string → bool)
    options request sms err result :
  reaches path_match options request → authorized options request →
  is_receive request →
  (smssync hash path_match options request).1 = [CallReceive sms] →
  onReceive options sms = (err, result) →
  onReceive options (body request) = (err, result) →
  (smssync hash path_match options request).2
  = (Legacy.smssync path_match options request).2
  ↔ JS.truthy err = true
    ∨ JS.truthy (reply options) = false
    ∨ ∃ item, item ∈ JS.concat [] result
              ∧ JS.truthy (Lodash.get item "to") = true.
Proof.
  intros Hpath Hauth Hreceive Hcall Hdone Hraw.
  rewrite (receive_completion hash path_match options request sms err result)
    by assumption.
  unfold Legacy.smssync, routed. unfold reaches in Hpath.
  rewrite (proj1 Hreceive), Hpath. simpl.
  unfold Legacy.post_route. rewrite Hraw. simpl.
  rewrite reply_payload, <- hasReply_exists.
  destruct (JS.truthy err); simpl.
  { destruct (JS.truthy (error options)); simpl; split; auto. }
  destruct (JS.truthy (reply options)); simpl; [|split; auto].
  destruct (0 <? _)%nat; simpl; [split; auto|].
  split.
  - intros Heq. exfalso.
    apply (f_equal
             (λ o, match o with
                   | Respond _ reply =>
                       JS.get_prop (JS.get_prop reply "payload") "error"
                   | _ => VUndefined
                   end)) in Heq.
    vm_compute in Heq. discriminate Heq.
  - intros [H|[H|H]]; discriminate H.
Qed.

(** ** The merged options *)

(** X12.  In the merged options, an option the caller gives with a
    value other than [undefined] replaces the default ([null] included);
    an option left out, or given as [undefined], keeps its default; a
    property without default is taken over as given. *)
Theorem merged_options_lookup (optns : gmap string value) key :
  merged_options optns !! key
  = match optns !! key, DEFAULTS !! key with
    | Some VUndefined, Some d => Some d
    | Some v, _ => Some v
    | None, d => d
    end.
Proof.
  unfold merged_options, Lodash.merge. simpl.
  rewrite !lookup_union_with, lookup_empty.
  destruct (DEFAULTS !! key) as [d|], (optns !! key) as [[]|]; reflexivity.
Qed.

(** X13.  Leaving [secret] out of the options (or giving [undefined])
    does not switch the protection off: the default secret ["smssync"]
    is in force.  Giving [null] or the empty string does switch it
    off. *)
Theorem secret_option_protection (optns : gmap string value) options :
  secret options = default VUndefined (merged_options optns !! "secret") →
  (optns !! "secret" = None ∨ optns !! "secret" = Some VUndefined →
   secret options = VStr "smssync" ∧ protected options = true)
  ∧ (optns !! "secret" = Some VNull ∨ optns !! "secret" = Some (VStr "") →
     protected options = false).
Proof.
  intros Hsecret. unfold protected. rewrite Hsecret.
  unfold merged_options, Lodash.merge. simpl.
  rewrite !lookup_union_with, lookup_empty.
  change (DEFAULTS !! "secret") with (Some (VStr "smssync")).
  split; intros [-> | ->]; simpl; auto.
Qed.

(** ** The further properties on the sample requests *)

Lemma authorized_iff_valid_or_exempt_witness :
  authorized (test_options (VBool true)) receive_request
  ∧ ¬ authorized (test_options (VBool true)) anonymous_request.
Proof.
  assert (Hnonempty : "smssync" ≠ "") by discriminate.
  split.
  - apply (proj2 (authorized_iff_valid_or_exempt (test_options (VBool true))
                    receive_request "smssync" eq_refl Hnonempty)).
    left. vm_compute. reflexivity.
  - intros Hauth.
    apply (proj1 (authorized_iff_valid_or_exempt (test_options (VBool true))
                    anonymous_request "smssync" eq_refl Hnonempty))
      in Hauth as [Hvalid | [Hpost _]].
    + vm_compute in Hvalid. discriminate Hvalid.
    + discriminate Hpost.
Defined.

Lemma wrong_query_secret_rejects_witness :
  ¬ authorized (test_options (VBool true)) wrong_query_secret_request.
Proof.
  apply (wrong_query_secret_rejects (test_options (VBool true))
           wrong_query_secret_request "smssync" (VStr "nope")).
  - reflexivity.
  - discriminate.
  - reflexivity.
  - reflexivity.
  - discriminate.
  - intros [Hpost _]. discriminate Hpost.
Defined.

Lemma body_secret_authorizes_witness :
  authorized (test_options (VBool true)) empty_query_secret_request.
Proof.
  apply (body_secret_authorizes (test_options (VBool true))
           empty_query_secret_request "smssync").
  - reflexivity.
  - reflexivity.
  - reflexivity.
Defined.


Lemma handler_failure_forwarded_witness :
  (smssync sample_hash sample_match (boom_options (VBool false))
     send_request).2
  = NextError (JS.Error "boom").
Proof.
  apply (handler_failure_forwarded sample_hash sample_match
           (boom_options (VBool false)) send_request CallSend
           (JS.Error "boom") VUndefined).
  - reflexivity.
  - vm_compute. reflexivity.
  - vm_compute. reflexivity.
  - reflexivity.
  - reflexivity.
  - discriminate.
  - discriminate.
Defined.

Lemma inline_failure_keeps_message_witness :
  (smssync sample_hash sample_match (boom_options (VBool true))
     delivered_request).2
  = Respond 200
      (VObj {[ "payload" :=
                 VObj {[ "success" := VBool false;
                         "error" := VStr "boom" ]} ]}).
Proof.
  apply (inline_failure_keeps_message sample_hash sample_match
           (boom_options (VBool true)) delivered_request
           (CallDelivered (VArr [VObj {[ "uuid" := VStr "u1" ]}]))
           (JS.Error "boom") VUndefined).
  - reflexivity.
  - vm_compute. reflexivity.
  - vm_compute. reflexivity.
  - reflexivity.
  - reflexivity.
  - reflexivity.
  - discriminate.
  - discriminate.
Defined.

Lemma delivery_result_outcome_witness :
  smssync sample_hash sample_match (test_options (VBool true))
    anonymous_delivered_request
  = ([CallDelivered (VArr [VObj {[ "uuid" := VStr "u1" ]}])],
     Respond 200
       (VObj {[ "payload" :=
                  VObj {[ "success" := VBool true; "error" := VNull ]} ]})).
Proof.
  apply (delivery_result_outcome sample_hash sample_match
           (test_options (VBool true)) anonymous_delivered_request VNull
           (VArr [VObj {[ "uuid" := VStr "u1" ]}])).
  - reflexivity.
  - reflexivity.
  - reflexivity.
  - reflexivity.
Defined.

Lemma sent_ack_echo_witness :
  smssync sample_hash sample_match (test_options (VBool true)) sent_request
  = ([CallSent (VArr [VStr "u1"])],
     Respond 200 (VObj {[ "queued_messages" := VArr [VStr "u1"] ]})).
Proof.
  assert (Hecho : ∀ queued,
            (onSent (test_options (VBool true)) queued).2 = queued)
    by (intros queued; reflexivity).
  apply (proj1 (sent_ack_echo sample_hash sample_match
                  (test_options (VBool true)) sent_request
                  eq_refl eq_refl eq_refl Hecho) [VStr "u1"]).
  reflexivity.
Defined.

Lemma receive_without_fields_witness :
  (routes sample_hash sample_match (test_options (VBool true))
     empty_receive_request).1
  = [CallReceive (VObj {[ "hash" := VStr "" ]})].
Proof.
  apply (receive_without_fields sample_hash sample_match
           (test_options (VBool true)) empty_receive_request).
  - reflexivity.
  - apply is_receive_no_task; reflexivity.
  - intros key _. reflexivity.
Defined.

Lemma send_poll_as_legacy_witness :
  smssync sample_hash sample_match (test_options (VBool true)) send_request
  = Legacy.smssync sample_match (test_options (VBool true)) send_request.
Proof.
  apply (send_poll_as_legacy sample_hash sample_match
           (test_options (VBool true)) send_request).
  - reflexivity.
  - vm_compute. reflexivity.
  - split; [reflexivity|]. vm_compute. discriminate.
Defined.

Lemma receive_agrees_with_legacy_iff_witness :
  (smssync sample_hash sample_match (test_options (VBool true))
     receive_request).2
  = (Legacy.smssync sample_match (test_options (VBool true))
       receive_request).2
  ∧ (smssync sample_hash sample_match idle_options receive_request).2
    ≠ (Legacy.smssync sample_match idle_options receive_request).2.
Proof.
  assert (Hreceive : is_receive receive_request)
    by (apply is_receive_no_task; reflexivity).
  split.
  - apply (proj2 (receive_agrees_with_legacy_iff sample_hash sample_match
                    (test_options (VBool true)) receive_request
                    (VObj received_sms) VNull
                    (VObj {[ "to" := VStr "+1"; "uuid" := VStr "m1";
                             "message" := VStr "hi" ]})
                    eq_refl eq_refl Hreceive eq_refl eq_refl eq_refl)).
    right. right. eexists. split; [left|]. reflexivity.
  - intros Hsame.
    apply (proj1 (receive_agrees_with_legacy_iff sample_hash sample_match
                    idle_options receive_request
                    (VObj received_sms) VNull VUndefined
                    eq_refl eq_refl Hreceive eq_refl eq_refl eq_refl))
      in Hsame as [Herr | [Hreply | (item & Hin & Hto)]].
    + discriminate Herr.
    + discriminate Hreply.
    + apply list_elem_of_singleton in Hin. subst item. discriminate Hto.
Defined.

Lemma secret_option_protection_witness :
  protected (test_options (VBool true)) = true
  ∧ protected open_options = false.
Proof.
  assert (Hdefault :
            secret (test_options (VBool true))
            = default VUndefined (merged_options ∅ !! "secret"))
    by (vm_compute; reflexivity).
  assert (Hnull :
            secret open_options
            = default VUndefined
                (merged_options {[ "secret" := VNull ]} !! "secret"))
    by (vm_compute; reflexivity).
  split.
  - apply (proj1 (secret_option_protection ∅ (test_options (VBool true))
                    Hdefault)).
    left. reflexivity.
  - apply (proj2 (secret_option_protection {[ "secret" := VNull ]}
                    open_options Hnull)).
    left. reflexivity.
Defined.

(** ** The sequences in the responses *)

(** C6 (amended).  At each of the four places where a handler result is
    rendered as a sequence (SentAck [queued_messages], QueuedPoll
    [message_uuids], SendPoll [messages], ReceiveMessage reply
    [messages]) the sequence in the response is the result itself when
    it is a sequence, and the one-element sequence holding the result
    otherwise: a [null] or absent result gives [[null]] or
    [[undefined]], not the empty sequence. *)
Theorem response_sequences
    (hash : value → string) (path_match : string → string → bool)
    options request err result :
  reaches path_match options request → authorized options request →
  let sequence := match result with
                  | VArr items => items
                  | _ => [result]
                  end in
  (method request = "POST" →
   query request !! "task" = Some (VStr "sent") →
   onSent options (Lodash.get (body request) "queued_messages")
   = (err, result) →
   (smssync hash path_match options request).2
   = Respond 200 (VObj {[ "queued_messages" := VArr sequence ]}))
  ∧ (method request = "GET" →
     query request !! "task" = Some (VStr "result") →
     onQueued options = (err, result) →
     (smssync hash path_match options request).2
     = Respond 200 (VObj {[ "message_uuids" := VArr sequence ]}))
  ∧ (is_send_poll request →
     onSend options = (err, result) →
     JS.truthy err = false →
     (smssync hash path_match options request).2
     = Respond 200
         (VObj {[ "payload" :=
                    VObj {[ "task" := VStr "send";
                            "secret" := secret options;
                            "messages" := VArr sequence ]} ]}))
  ∧ (is_receive request →
     ∀ sms,
       (smssync hash path_match options request).1 = [CallReceive sms] →
       onReceive options sms = (err, result) →
       JS.truthy err = false →
       JS.truthy (reply options) = true →
       (∃ item, item ∈ sequence ∧ JS.truthy (Lodash.get item "to") = true) →
       (smssync hash path_match options request).2
       = Respond 200
           (VObj {[ "payload" :=
                      VObj {[ "success" := VBool true; "task" := VStr "send";
                              "messages" := VArr sequence ]} ]})).
Proof.
  intros Hpath Hauth sequence.
  assert (Hsequence : JS.concat [] result = sequence) by reflexivity.
  split; [|split; [|split]].
  - intros Hm Htask Hdone.
    rewrite smssync_authorized by assumption.
    rewrite routes_post by assumption. unfold post_route.
    rewrite (task_test (query request) TASK_SENT) by discriminate.
    apply task_is_true in Htask. unfold TASK_SENT. rewrite Htask, Hdone.
    reflexivity.
  - intros Hm Htask Hdone.
    rewrite smssync_authorized by assumption.
    rewrite routes_get by assumption. unfold get_route.
    rewrite (task_test (query request) TASK_RESULT) by discriminate.
    apply task_is_true in Htask. unfold TASK_RESULT. rewrite Htask, Hdone.
    reflexivity.
  - intros [Hm Htask] Hdone Hok.
    rewrite smssync_authorized by assumption.
    rewrite routes_get by assumption. unfold get_route.
    rewrite (task_test (query request) TASK_RESULT) by discriminate.
    apply task_is_false in Htask. unfold TASK_RESULT. rewrite Htask, Hdone.
    simpl. rewrite Hok. reflexivity.
  - intros Hreceive sms Hcall Hdone Hok Hreply Hitem.
    rewrite (receive_completion hash path_match options request sms err
               result) by assumption.
    simpl. rewrite Hok, Hreply. simpl.
    rewrite <- Hsequence in Hitem. apply hasReply_exists in Hitem.
    rewrite Hitem. reflexivity.
Qed.

Lemma response_sequences_witness :
  (smssync sample_hash sample_match idle_options send_request).2
  = Respond 200
      (VObj {[ "payload" :=
                 VObj {[ "task" := VStr "send"; "secret" := VStr "smssync";
                         "messages" := VArr [VUndefined] ]} ]})
  ∧ (smssync sample_hash sample_match idle_options queued_request).2
    = Respond 200 (VObj {[ "message_uuids" := VArr [VNull] ]})
  ∧ (smssync sample_hash sample_match (test_options (VBool true))
       sent_request).2
    = Respond 200 (VObj {[ "queued_messages" := VArr [VStr "u1"] ]}).
Proof.
  assert (Hidle : ∀ request,
            query request !! "secret" = Some (VStr "smssync") →
            authorized idle_options request).
  { intros request Hq. apply valid_secret_authorized.
    rewrite (request_secret_query request (VStr "smssync"))
      by (exact Hq || reflexivity).
    reflexivity. }
  split; [|split].
  - apply (response_sequences sample_hash sample_match idle_options
             send_request VNull VUndefined).
    + reflexivity.
    + apply Hidle. reflexivity.
    + split; [reflexivity|]. vm_compute. discriminate.
    + reflexivity.
    + reflexivity.
  - apply (response_sequences sample_hash sample_match idle_options
             queued_request VNull VNull).
    + reflexivity.
    + apply Hidle. reflexivity.
    + reflexivity.
    + reflexivity.
    + reflexivity.
  - apply (response_sequences sample_hash sample_match
             (test_options (VBool true)) sent_request VNull
             (VArr [VStr "u1"])).
    + reflexivity.
    + apply exempt_authorized. split; [reflexivity|]. left. reflexivity.
    + reflexivity.
    + reflexivity.
    + reflexivity.
Defined.

(** ** Where the specification's wording and the program part, continued *)

(** C1, as worded with the specification's provided secret (the query's
    when present), fails on [POST /smssync?secret=] with the configured
    secret in the body: the provided secret is the empty string, the
    request is not exempt, yet [onReceive] is called and the request is
    answered as a success. *)
Lemma provided_secret_counterexample :
  secret (test_options (VBool true)) = VStr "smssync"
  ∧ spec_provided_secret empty_query_secret_request = VStr ""
  ∧ ¬ is_exempt empty_query_secret_request
  ∧ smssync sample_hash sample_match (test_options (VBool true))
      empty_query_secret_request
    = ([CallReceive (VObj {[ "message" := VStr "hi"; "hash" := VStr "" ]})],
       Respond 200
         (VObj {[ "payload" :=
                    VObj {[ "success" := VBool true; "error" := VNull ]} ]})).
Proof.
  split; [reflexivity|]. split; [reflexivity|]. split.
  - intros [_ [Htask|Htask]]; vm_compute in Htask; discriminate Htask.
  - vm_compute. reflexivity.
Qed.

(** C5, as worded with the specification's flattening, fails when
    [onSend] completes with no result: the response carries
    [messages: [undefined]], not the empty sequence. *)
Lemma send_poll_flatten_counterexample :
  onSend idle_options = (VNull, VUndefined)
  ∧ JS.truthy VNull = false
  ∧ is_send_poll send_request
  ∧ authorized idle_options send_request
  ∧ smssync sample_hash sample_match idle_options send_request
    ≠ ([CallSend],
       Respond 200
         (VObj {[ "payload" :=
                    VObj {[ "task" := VStr "send";
                            "secret" := VStr "smssync";
                            "messages" := VArr (spec_flatten VUndefined) ]} ]})).
Proof.
  split; [reflexivity|]. split; [reflexivity|]. split; [|split].
  - split; [reflexivity|]. vm_compute. discriminate.
  - vm_compute. reflexivity.
  - intros Hsame.
    apply (f_equal
             (λ served : list call * outcome,
                match served.2 with
                | Respond _ reply =>
                    JS.get_prop (JS.get_prop reply "payload") "messages"
                | _ => VUndefined
                end)) in Hsame.
    vm_compute in Hsame. discriminate Hsame.
Qed.

(** C9, as worded with the specification's flattening, fails when the
    handler fails without a result: the answers carry
    [queued_messages: [undefined]] and [message_uuids: [null]], not the
    empty sequence. *)
Lemma sent_and_queued_flatten_counterexample :
  onSent (failing_options (VBool false)) (VArr [VStr "u1"])
  = (JS.Error "", VUndefined)
  ∧ smssync sample_hash sample_match (failing_options (VBool false))
      sent_request
    ≠ ([CallSent (VArr [VStr "u1"])],
       Respond 200
         (VObj {[ "queued_messages" := VArr (spec_flatten VUndefined) ]}))
  ∧ onQueued (failing_options (VBool false)) = (JS.Error "", VNull)
  ∧ smssync sample_hash sample_match (failing_options (VBool false))
      queued_request
    ≠ ([CallQueued],
       Respond 200
         (VObj {[ "message_uuids" := VArr (spec_flatten VNull) ]})).
Proof.
  split; [reflexivity|]. split; [|split; [reflexivity|]].
  - intros Hsame.
    apply (f_equal
             (λ served : list call * outcome,
                match served.2 with
                | Respond _ reply => JS.get_prop reply "queued_messages"
                | _ => VUndefined
                end)) in Hsame.
    vm_compute in Hsame. discriminate Hsame.
  - intros Hsame.
    apply (f_equal
             (λ served : list call * outcome,
                match served.2 with
                | Respond _ reply => JS.get_prop reply "message_uuids"
                | _ => VUndefined
                end)) in Hsame.
    vm_compute in Hsame. discriminate Hsame.
Qed.
